(** * BI-System: the dual-backend table models and the filter proxy

    A shallow embedding of [src/data_models.py]: the two table models
    ([PandasTableModel], [PolarsTableModel]) and [SortFilterProxyModel],
    together with the Python built-ins they call (string methods, [float],
    format specifications, [datetime.strptime]/[strftime]).

    Conventions.
    - Python [str] is modelled as [string], a sequence of bytes: the text is
      UTF-8 encoded, and the character classes used by the built-ins
      (digits, white space, letter case) are the ASCII ones.
    - Python [float] is IEEE-754 binary64, modelled by [spec_float] with
      precision 53 and maximal exponent 1024; every operation rounds to
      nearest, ties to even, exactly as the hardware does.
    - Python exceptions are values of [exn]; a computation that may raise
      returns [res A].  [try ... except] is [try_except]. *)

From Stdlib Require Import ZArith List Ascii String Lia Bool.
From Stdlib Require Import Sorting.Permutation.
From Stdlib Require Import Floats.SpecFloat.
From Stdlib Require DecimalString DecimalPos DecimalN.
From stdpp Require Import gmap strings list.

Local Open Scope string_scope.
Local Open Scope Z_scope.

(** ** Exceptions and the result monad *)

Module Py.

(** The subclasses of [Exception] raised by the operations modelled below. *)
Inductive exn : Type :=
| ValueError
| TypeError
| AttributeError
| IndexError
| KeyError
| OverflowError.

Definition exn_eqb (a b : exn) : bool :=
  match a, b with
  | ValueError, ValueError | TypeError, TypeError
  | AttributeError, AttributeError | IndexError, IndexError
  | KeyError, KeyError | OverflowError, OverflowError => true
  | _, _ => false
  end.

Inductive res (A : Type) : Type :=
| Ret (a : A)
| Raise (e : exn).
Arguments Ret {A} a.
Arguments Raise {A} e.

Definition bind {A B} (c : res A) (k : A -> res B) : res B :=
  match c with
  | Ret a => k a
  | Raise e => Raise e
  end.

#[global] Instance res_bind : MBind res := fun A B k c => bind c k.
#[global] Instance res_ret : MRet res := fun A a => Ret a.

(** [try: body except (classes): handler].  [classes] lists the caught
    exception classes. *)
Definition try_except {A} (body : res A) (classes : list exn) (handler : res A)
  : res A :=
  match body with
  | Ret a => Ret a
  | Raise e => if existsb (exn_eqb e) classes then handler else Raise e
  end.

(** [try: body except Exception: handler]: every [exn] is an [Exception]. *)
Definition try_except_Exception {A} (body : res A) (handler : res A) : res A :=
  match body with
  | Ret a => Ret a
  | Raise _ => handler
  end.

(** ** Strings *)

Definition is_digit (c : ascii) : bool :=
  let n := N_of_ascii c in ((48 <=? n) && (n <=? 57))%N.

Definition digit_val (c : ascii) : Z := Z.of_N (N_of_ascii c) - 48.

(** ASCII white space as the C function [Py_ISSPACE] sees it after
    [float] has mapped the Unicode separators 0x1c..0x1f to a blank. *)
Definition is_space (c : ascii) : bool :=
  let n := N_of_ascii c in
  ((n =? 32) || ((9 <=? n) && (n <=? 13)) || ((28 <=? n) && (n <=? 31)))%N.

Definition lower_ascii (c : ascii) : ascii :=
  let n := N_of_ascii c in
  if ((65 <=? n) && (n <=? 90))%N then ascii_of_N (n + 32) else c.

(** [s.lower()] *)
Fixpoint lower (s : string) : string :=
  match s with
  | EmptyString => EmptyString
  | String c t => String (lower_ascii c) (lower t)
  end.

(** [s.replace(c, '')] for a one-character [c] *)
Fixpoint remove_char (c : ascii) (s : string) : string :=
  match s with
  | EmptyString => EmptyString
  | String d t => if Ascii.eqb c d then remove_char c t else String d (remove_char c t)
  end.

(** [needle in hay] *)
Fixpoint contains (needle hay : string) : bool :=
  String.prefix needle hay ||
  match hay with
  | EmptyString => false
  | String _ t => contains needle t
  end.

Fixpoint lstrip (s : string) : string :=
  match s with
  | String c t => if is_space c then lstrip t else s
  | EmptyString => EmptyString
  end.

Definition rstrip (s : string) : string :=
  String.rev (lstrip (String.rev s)).

Definition strip (s : string) : string := rstrip (lstrip s).

(** [x in [t1, ..., tn]] for strings *)
Definition str_in (x : string) (l : list string) : bool :=
  existsb (String.eqb x) l.

(** ** Floats: IEEE-754 binary64 *)

Definition prec : Z := 53.
Definition emax : Z := 1024.

Abbreviation float := spec_float.

Definition inf : float := S754_infinity false.
Definition neg_inf : float := S754_infinity true.
Definition nan : float := S754_nan.

Definition is_nan (f : float) : bool :=
  match f with S754_nan => true | _ => false end.

(** [a <= b] and [a != b] on floats: NaN is below nothing, above nothing
    and different from everything. *)
Definition float_le (a b : float) : bool := SFleb a b.
Definition float_ne (a b : float) : bool := negb (SFeqb a b).

Definition float_sub (a b : float) : float := SFsub prec emax a b.
Definition float_add (a b : float) : float := SFadd prec emax a b.
Definition float_mul (a b : float) : float := SFmul prec emax a b.
Definition float_div (a b : float) : float := SFdiv prec emax a b.
Definition float_abs (a : float) : float := SFabs a.

(** The float nearest to the integer [z] (exact below 2^53). *)
Definition float_of_Z (z : Z) : float := binary_normalize prec emax z 0 false.

(** The float nearest to [(-1)^neg * m * 10^e10], as the correctly rounded
    decimal-to-binary conversion of CPython ([_Py_dg_strtod]) gives it;
    too large a magnitude yields an infinity, too small a zero. *)
Definition float_of_decimal (neg : bool) (m : Z) (e10 : Z) : float :=
  match m with
  | Z0 => S754_zero neg
  | Zneg _ => S754_nan
  | Zpos p =>
      if 0 <=? e10
      then binary_normalize prec emax (cond_Zopp neg (m * 10 ^ e10)) 0 neg
      else SFdiv prec emax (S754_finite neg p 0)
                           (S754_finite false (Z.to_pos (10 ^ (- e10))) 0)
  end.

(** *** [float(s)] for a string [s] *)

(** CPython first removes the underscores, and refuses one that is not
    between two digits ([_Py_string_to_number_with_underscores]).  [prev]
    is the previous character, if any. *)
Fixpoint strip_underscores (prev : option ascii) (s : string) : option string :=
  match s with
  | EmptyString =>
      match prev with
      | Some "_"%char => None
      | _ => Some EmptyString
      end
  | String c t =>
      if Ascii.eqb c "_" then
        match prev with
        | Some p => if is_digit p then strip_underscores (Some c) t else None
        | None => None
        end
      else
        match prev with
        | Some "_"%char =>
            if is_digit c
            then option_map (String c) (strip_underscores (Some c) t)
            else None
        | _ => option_map (String c) (strip_underscores (Some c) t)
        end
  end.

(** An optional sign: [true] for [-]. *)
Definition read_sign (s : string) : bool * string :=
  match s with
  | String "-" t => (true, t)
  | String "+" t => (false, t)
  | _ => (false, s)
  end.

(** Reads a run of decimal digits: [acc] accumulates the value read so far,
    the count of digits read is returned with the value and the rest. *)
Fixpoint read_digits (s : string) (acc : Z) (n : Z) : Z * Z * string :=
  match s with
  | String c t =>
      if is_digit c then read_digits t (10 * acc + digit_val c) (n + 1)
      else (acc, n, s)
  | EmptyString => (acc, n, s)
  end.

Definition is_exp_mark (c : ascii) : bool :=
  Ascii.eqb c "e" || Ascii.eqb c "E".

(** The decimal number grammar of [strtod]:
    [digits* [. digits*] [(e|E) [sign] digits+]] with a digit in the
    mantissa, and nothing after it. *)
Definition parse_decimal (neg : bool) (s : string) : option float :=
  let '(ip, ni, s2) := read_digits s 0 0 in
  let '(m, nf, s3) :=
    match s2 with
    | String "." t => read_digits t ip 0
    | _ => (ip, 0, s2)
    end in
  if ni + nf =? 0 then None
  else
    match s3 with
    | EmptyString => Some (float_of_decimal neg m (- nf))
    | String c t =>
        if is_exp_mark c then
          let '(eneg, t1) := read_sign t in
          let '(ev, ne, t2) := read_digits t1 0 0 in
          if (ne =? 0) || negb (String.eqb t2 EmptyString) then None
          else Some (float_of_decimal neg m (cond_Zopp eneg ev - nf))
        else None
    end.

(** [float(s)]: ["inf"], ["infinity"] and ["nan"] in any letter case, or a
    decimal number, with an optional sign and surrounding white space.
    Anything else raises [ValueError]. *)
Definition parse_float (s : string) : option float :=
  match strip_underscores None s with
  | None => None
  | Some s0 =>
      let '(neg, s1) := read_sign (strip s0) in
      let l := lower s1 in
      if String.eqb l "inf" || String.eqb l "infinity"
      then Some (S754_infinity neg)
      else if String.eqb l "nan" then Some nan
      else parse_decimal neg s1
  end.

Definition float_of_str (s : string) : res float :=
  match parse_float s with
  | Some f => Ret f
  | None => Raise ValueError
  end.

(** ** Format specifications *)

Definition digits (n : Z) : string :=
  DecimalString.NilEmpty.string_of_uint (N.to_uint (Z.to_N n)).

(** Walks the digits from the least significant one and puts a comma after
    every third digit that has a digit to its left; [k] counts the digits
    of the current group. *)
Fixpoint group_rev (s : string) (k : nat) : string :=
  match s with
  | EmptyString => EmptyString
  | String c EmptyString => String c EmptyString
  | String c t =>
      match k with
      | 2%nat => String c (String "," (group_rev t 0))
      | _ => String c (group_rev t (S k))
      end
  end.

(** The thousands separator of the [,] option. *)
Definition group3 (s : string) : string := String.rev (group_rev (String.rev s) 0).

(** [f"{z:,}"] for an integer *)
Definition format_int (z : Z) : string :=
  (if z <? 0 then "-" else "") ++ group3 (digits (Z.abs z)).

Definition pad2 (n : Z) : string :=
  if n <? 10 then "0" ++ digits n else digits n.

Definition pad4 (n : Z) : string :=
  if n <? 10 then "000" ++ digits n
  else if n <? 100 then "00" ++ digits n
  else if n <? 1000 then "0" ++ digits n
  else digits n.

(** [a / b] rounded to the nearest integer, ties to even ([0 < b]). *)
Definition round_half_even (a b : Z) : Z :=
  let q := a / b in
  let r := a mod b in
  match 2 * r ?= b with
  | Lt => q
  | Gt => q + 1
  | Eq => if Z.even q then q else q + 1
  end.

(** The hundredths of [m * 2^e], rounded half to even on the exact value. *)
Definition hundredths (m : positive) (e : Z) : Z :=
  if 0 <=? e then Zpos m * 2 ^ e * 100
  else round_half_even (Zpos m * 100) (2 ^ (- e)).

Definition fixed2 (neg : bool) (n : Z) : string :=
  (if neg then "-" else "") ++ group3 (digits (n / 100)) ++ "." ++ pad2 (n mod 100).

(** [f"{x:,.2f}"] for a float *)
Definition format_float (x : float) : string :=
  match x with
  | S754_nan => "nan"
  | S754_infinity s => if s then "-inf" else "inf"
  | S754_zero s => fixed2 s 0
  | S754_finite s m e => fixed2 s (hundredths m e)
  end.

(** ** [datetime] *)

Record date : Type := mkDate { d_year : Z; d_month : Z; d_day : Z }.

(** A [datetime] to the second; none of the formats of this program reads
    or prints microseconds. *)
Record datetime : Type := mkDatetime {
  year : Z; month : Z; day : Z; hour : Z; minute : Z; second : Z }.

(** [dt.date()] *)
Definition date_of (dt : datetime) : date :=
  mkDate (year dt) (month dt) (day dt).

Definition date_compare (a b : date) : comparison :=
  match d_year a ?= d_year b with
  | Eq => match d_month a ?= d_month b with
          | Eq => d_day a ?= d_day b
          | c => c
          end
  | c => c
  end.

(** [a <= b] on dates *)
Definition date_le (a b : date) : bool :=
  match date_compare a b with Gt => false | _ => true end.

Definition is_leap (y : Z) : bool :=
  (y mod 4 =? 0) && (negb (y mod 100 =? 0) || (y mod 400 =? 0)).

Definition days_in_month (y m : Z) : Z :=
  if m =? 2 then (if is_leap y then 29 else 28)
  else if (m =? 4) || (m =? 6) || (m =? 9) || (m =? 11) then 30
  else 31.

(** The strftime and strptime directives this program uses.  A blank in a
    format is [Blank]; any other character stands for itself. *)
Inductive directive : Type :=
| DirY | Dirm | Dird | DirH | DirM | DirS
| Blank
| Lit (c : ascii).

Fixpoint compile_format (fmt : string) : list directive :=
  match fmt with
  | EmptyString => []
  | String "%" (String c t) =>
      (if Ascii.eqb c "Y" then DirY
       else if Ascii.eqb c "m" then Dirm
       else if Ascii.eqb c "d" then Dird
       else if Ascii.eqb c "H" then DirH
       else if Ascii.eqb c "M" then DirM
       else if Ascii.eqb c "S" then DirS
       else Lit c) :: compile_format t
  | String c t =>
      (if is_space c then Blank else Lit c) :: compile_format t
  end.

Definition strftime_directive (dt : datetime) (d : directive) : string :=
  match d with
  | DirY => pad4 (year dt)
  | Dirm => pad2 (month dt)
  | Dird => pad2 (day dt)
  | DirH => pad2 (hour dt)
  | DirM => pad2 (minute dt)
  | DirS => pad2 (second dt)
  | Blank => " "
  | Lit c => String c EmptyString
  end.

(** [dt.strftime(fmt)]; the year is printed on four digits. *)
Definition strftime (dt : datetime) (fmt : string) : string :=
  String.concat "" (map (strftime_directive dt) (compile_format fmt)).

(** *** [datetime.strptime]

    CPython turns the format into a regular expression, one group of
    alternatives per directive, and takes the first match in the
    backtracking order of [re.match]; text left after the match, or a date
    that does not exist, raises [ValueError] ([Lib/_strptime.py]). *)

(** A character class: an inclusive range of bytes. *)
Definition cls : Type := N * N.

Definition in_cls (c : ascii) (k : cls) : bool :=
  let n := N_of_ascii c in ((fst k <=? n) && (n <=? snd k))%N.

Definition cdigit : cls := (48, 57)%N.
Definition crange (a b : Z) : cls := (Z.to_N (48 + a), Z.to_N (48 + b)).
Definition cblank : cls := (32, 32)%N.

(** Matches the classes of one alternative against a prefix of [s]; gives
    the matched text and the rest. *)
Fixpoint match_alt (a : list cls) (s : string) : option (string * string) :=
  match a with
  | [] => Some (EmptyString, s)
  | k :: a' =>
      match s with
      | String c t =>
          if in_cls c k
          then option_map (fun '(m, r) => (String c m, r)) (match_alt a' t)
          else None
      | EmptyString => None
      end
  end.

(** The alternatives of each numeric directive, in the order of the
    regular expression. *)
Definition directive_alts (d : directive) : list (list cls) :=
  match d with
  | DirY => [[cdigit; cdigit; cdigit; cdigit]]
  | Dirm => [[crange 1 1; crange 0 2]; [crange 0 0; crange 1 9]; [crange 1 9]]
  | Dird => [[crange 3 3; crange 0 1]; [crange 1 2; cdigit];
             [crange 0 0; crange 1 9]; [crange 1 9]; [cblank; crange 1 9]]
  | DirH => [[crange 2 2; crange 0 3]; [crange 0 1; cdigit]; [cdigit]]
  | DirM => [[crange 0 5; cdigit]; [cdigit]]
  | DirS => [[crange 6 6; crange 0 1]; [crange 0 5; cdigit]; [cdigit]]
  | Blank | Lit _ => []
  end.

(** The rests after a run of one or more blanks, the longest run first:
    the greedy [\s+] that replaces white space in a format. *)
Fixpoint blank_runs (s : string) : list string :=
  match s with
  | String c t => if is_space c then blank_runs t ++ [t] else []
  | EmptyString => []
  end.

(** The ways one directive matches a prefix of [s], in backtracking order:
    the matched text and the rest. *)
Definition candidates (d : directive) (s : string) : list (string * string) :=
  match d with
  | Blank => map (fun r => (EmptyString, r)) (blank_runs s)
  | Lit c =>
      match s with
      | String c' t =>
          if Ascii.eqb (lower_ascii c) (lower_ascii c')
          then [(String c' EmptyString, t)] else []
      | EmptyString => []
      end
  | _ => omap (fun a => match_alt a s) (directive_alts d)
  end.

(** [int(txt)] for the text of a group: digits, after optional blanks. *)
Definition int_of_group (txt : string) : Z :=
  fst (fst (read_digits (lstrip txt) 0 0)).

Definition set_field (dt : datetime) (d : directive) (txt : string) : datetime :=
  let v := int_of_group txt in
  match d with
  | DirY => mkDatetime v (month dt) (day dt) (hour dt) (minute dt) (second dt)
  | Dirm => mkDatetime (year dt) v (day dt) (hour dt) (minute dt) (second dt)
  | Dird => mkDatetime (year dt) (month dt) v (hour dt) (minute dt) (second dt)
  | DirH => mkDatetime (year dt) (month dt) (day dt) v (minute dt) (second dt)
  | DirM => mkDatetime (year dt) (month dt) (day dt) (hour dt) v (second dt)
  | DirS => mkDatetime (year dt) (month dt) (day dt) (hour dt) (minute dt) v
  | Blank | Lit _ => dt
  end.

Fixpoint first_some {A B} (f : A -> option B) (l : list A) : option B :=
  match l with
  | [] => None
  | a :: l' => match f a with Some b => Some b | None => first_some f l' end
  end.

(** The first match of the whole format against a prefix of [s]. *)
Fixpoint match_format (ds : list directive) (s : string) (acc : datetime)
  : option (datetime * string) :=
  match ds with
  | [] => Some (acc, s)
  | d :: ds' =>
      first_some (fun '(txt, r) => match_format ds' r (set_field acc d txt))
                 (candidates d s)
  end.

(** The argument check of the [datetime] constructor. *)
Definition datetime_valid (dt : datetime) : bool :=
  (1 <=? year dt) && (year dt <=? 9999) &&
  (1 <=? month dt) && (month dt <=? 12) &&
  (1 <=? day dt) && (day dt <=? days_in_month (year dt) (month dt)) &&
  (0 <=? hour dt) && (hour dt <=? 23) &&
  (0 <=? minute dt) && (minute dt <=? 59) &&
  (0 <=? second dt) && (second dt <=? 59).

(** The fields a format does not set: 1900-01-01 00:00:00. *)
Definition strptime_default : datetime := mkDatetime 1900 1 1 0 0 0.

(** [datetime.strptime(s, fmt)] *)
Definition strptime (s fmt : string) : res datetime :=
  match match_format (compile_format fmt) s strptime_default with
  | None => Raise ValueError
  | Some (dt, rest) =>
      if negb (String.eqb rest EmptyString) then Raise ValueError
      else if datetime_valid dt then Ret dt
      else Raise ValueError
  end.

(** ** Python values held by a filter descriptor *)

Inductive PyVal : Type :=
| VNone
| VBool (b : bool)
| VInt (z : Z)
| VFloat (f : float)
| VStr (s : string)
| VDate (d : date)
| VDatetime (dt : datetime).

(** [v == s] for a string literal [s] *)
Definition eq_str (v : PyVal) (s : string) : bool :=
  match v with
  | VStr t => String.eqb t s
  | _ => false
  end.

(** The exact order between an integer and a float, as
    [float_richcompare] computes it; [None] when the float is NaN. *)
Definition compare_Z_float (z : Z) (f : float) : option comparison :=
  match f with
  | S754_nan => None
  | S754_infinity s => Some (if s then Gt else Lt)
  | S754_zero _ => Some (z ?= 0)
  | S754_finite s m e =>
      let v := cond_Zopp s (Zpos m) in
      Some (if 0 <=? e then z ?= v * 2 ^ e else z * 2 ^ (- e) ?= v)
  end.

Definition datetime_compare (a b : datetime) : comparison :=
  match date_compare (date_of a) (date_of b) with
  | Eq => match hour a ?= hour b with
          | Eq => match minute a ?= minute b with
                  | Eq => second a ?= second b
                  | c => c
                  end
          | c => c
          end
  | c => c
  end.

Definition le_of (c : option comparison) : bool :=
  match c with
  | Some Lt | Some Eq => true
  | _ => false
  end.

Definition as_number (v : PyVal) : option (Z + float) :=
  match v with
  | VBool b => Some (inl (if b then 1 else 0))
  | VInt z => Some (inl z)
  | VFloat f => Some (inr f)
  | _ => None
  end.

(** [x <= y] for two numbers: integers exactly, floats by IEEE-754, and
    an integer against a float by their exact values. *)
Definition number_le (x y : Z + float) : bool :=
  match x, y with
  | inl z1, inl z2 => z1 <=? z2
  | inl z, inr f => le_of (compare_Z_float z f)
  | inr f, inl z => le_of (option_map CompOpp (compare_Z_float z f))
  | inr f1, inr f2 => float_le f1 f2
  end.

(** [a <= b].  Numbers compare with numbers ([bool] is an [int]), strings
    with strings, dates with dates and datetimes with datetimes; any other
    pair raises [TypeError], a date against a datetime included. *)
Definition py_le (a b : PyVal) : res bool :=
  match as_number a, as_number b with
  | Some x, Some y => Ret (number_le x y)
  | _, _ =>
      match a, b with
      | VStr s1, VStr s2 => Ret (String.leb s1 s2)
      | VDate d1, VDate d2 => Ret (date_le d1 d2)
      | VDatetime t1, VDatetime t2 =>
          Ret match datetime_compare t1 t2 with Gt => false | _ => true end
      | _, _ => Raise TypeError
      end
  end.

(** The chained comparison [a <= b <= c]: the second comparison is not
    evaluated when the first is false. *)
Definition chained_le (a b c : PyVal) : res bool :=
  r ← py_le a b;
  if r : bool then py_le b c else Ret false.

(** A [dict] with string keys, and its [get] method. *)
Abbreviation dict := (gmap string PyVal).

Definition get (d : dict) (k : string) : PyVal := default VNone (d !! k).
Definition get_default (d : dict) (k : string) (dflt : PyVal) : PyVal :=
  default dflt (d !! k).

(** [str(v)] when [v] is what a table model returns for the display role:
    a string, or [None]. *)
Definition str_of (v : option string) : string :=
  match v with
  | Some s => s
  | None => "None"
  end.

(** [int(x)] for a float: truncation towards zero; NaN raises
    [ValueError], an infinity [OverflowError]. *)
Definition int_of_float (x : float) : res Z :=
  match x with
  | S754_nan => Raise ValueError
  | S754_infinity _ => Raise OverflowError
  | S754_zero _ => Ret 0
  | S754_finite s m e =>
      Ret (cond_Zopp s (if 0 <=? e then Zpos m * 2 ^ e else Zpos m / 2 ^ (- e)))
  end.

(** [a / b] for two integers, [b] not zero: the float nearest to the exact
    quotient. *)
Definition int_truediv (a b : Z) : float :=
  match a, b with
  | Z0, _ => S754_zero (b <? 0)
  | _, Z0 => S754_nan
  | _, _ =>
      SFdiv prec emax (S754_finite (a <? 0) (Z.to_pos (Z.abs a)) 0)
                      (S754_finite (b <? 0) (Z.to_pos (Z.abs b)) 0)
  end.

(** [l[i]] for a Python sequence: a negative index counts from the end. *)
Definition py_index {A} (l : list A) (i : Z) : res A :=
  let n := Z.of_nat (length l) in
  let j := if i <? 0 then i + n else i in
  if (0 <=? j) && (j <? n) then
    match nth_error l (Z.to_nat j) with
    | Some a => Ret a
    | None => Raise IndexError
    end
  else Raise IndexError.

(** The items of [l] at the positions [p], in that order: the indexing of
    a column by an array of positions. *)
Definition reorder {A} (l : list A) (p : list nat) : list A :=
  omap (fun i => l !! i) p.

(** [str(z)] for an integer *)
Definition str_of_int (z : Z) : string :=
  (if z <? 0 then "-" else "") ++ digits (Z.abs z).

(** [a > b] and [a < b] on floats *)
Definition float_gt (a b : float) : bool := SFltb b a.
Definition float_lt (a b : float) : bool := SFltb a b.

(** [d[k] = v] on the items of a [dict], which keeps the order of
    insertion: a key that is present keeps its place. *)
Fixpoint dict_set {V} (k : string) (v : V) (d : list (string * V))
  : list (string * V) :=
  match d with
  | [] => [(k, v)]
  | (k', v') :: d' =>
      if String.eqb k' k then (k', v) :: d' else (k', v') :: dict_set k v d'
  end.

End Py.

Import Py.

(** ** Qt: the parts of the item-model protocol the program uses *)

Module Qt.

(** A [QModelIndex]: [isValid()] holds of [Index _ _] exactly. *)
Inductive QModelIndex : Type :=
| Invalid
| Index (row column : nat).

Inductive SortOrder : Type := AscendingOrder | DescendingOrder.

Definition SortOrder_eqb (a b : SortOrder) : bool :=
  match a, b with
  | AscendingOrder, AscendingOrder | DescendingOrder, DescendingOrder => true
  | _, _ => false
  end.

Record QColor : Type := mkQColor { red : Z; green : Z; blue : Z }.

(** The notifications a model emits around a change of layout. *)
Inductive signal : Type :=
| layoutAboutToBeChanged
| layoutChanged.

(** The interface of [QAbstractTableModel] the proxy relies on.
    [headerData] is the horizontal header for the display role, and [data]
    the display role of [data]. *)
Class TableModel (M : Type) : Type := {
  rowCount : M -> nat;
  columnCount : M -> nat;
  headerData : M -> nat -> res string;
  data : M -> QModelIndex -> res (option string)
}.

(** [QAbstractTableModel.index(row, column)]: a valid index inside the
    table, an invalid one outside. *)
Definition index {M} `{TableModel M} (m : M) (row : Z) (column : Z)
  : QModelIndex :=
  if (0 <=? row) && (row <? Z.of_nat (rowCount m)) &&
     (0 <=? column) && (column <? Z.of_nat (columnCount m))
  then Index (Z.to_nat row) (Z.to_nat column)
  else Invalid.

(** A method that reads and writes the model [S], emits signals and
    may raise: it maps the model and the signals emitted so far to its
    result, the new model and the signals emitted by the end.  What was
    written and emitted before an exception stays. *)
Definition prog (S A : Type) : Type := S -> list signal -> res A * S * list signal.

Definition prog_ret {S A} (a : A) : prog S A := fun s log => (Ret a, s, log).

Definition prog_bind {S A B} (c : prog S A) (k : A -> prog S B) : prog S B :=
  fun s log =>
    match c s log with
    | (Ret a, s', log') => k a s' log'
    | (Raise e, s', log') => (Raise e, s', log')
    end.

#[global] Instance prog_mret {S} : MRet (prog S) := fun A a => prog_ret a.
#[global] Instance prog_mbind {S} : MBind (prog S) := fun A B k c => prog_bind c k.

(** [self.sig.emit()] *)
Definition emit {S} (sig : signal) : prog S unit :=
  fun s log => (Ret tt, s, (log ++ [sig])%list).

Definition lift {S A} (r : res A) : prog S A := fun s log => (r, s, log).
Definition gets {S A} (f : S -> A) : prog S A := fun s log => (Ret (f s), s, log).
Definition modify {S} (f : S -> S) : prog S unit := fun s log => (Ret tt, f s, log).

(** [try: body except Exception: handler] *)
Definition try_prog {S A} (body handler : prog S A) : prog S A :=
  fun s log =>
    match body s log with
    | (Raise _, s', log') => handler s' log'
    | r => r
    end.

Inductive Orientation : Type := Horizontal | Vertical.

Inductive ItemDataRole : Type :=
| DisplayRole
| DecorationRole
| EditRole
| ToolTipRole
| TextAlignmentRole
| BackgroundRole.

Definition is_DisplayRole (r : ItemDataRole) : bool :=
  match r with DisplayRole => true | _ => false end.

(** The values of [Qt.AlignmentFlag]; [|] on flags is the bitwise or. *)
Definition AlignLeft : Z := 1.
Definition AlignRight : Z := 2.
Definition AlignVCenter : Z := 128.

(** The models a [FilterDialog] can read: a table model that also tells
    the type tag of a column. *)
Class TypedTableModel (M : Type) `{TableModel M} : Type := {
  get_column_dtype : M -> nat -> string
}.

End Qt.

Import Qt.

(** ** [PandasTableModel] *)

Module Pandas.

Inductive width : Type := W8 | W16 | W32 | W64.

Definition width_str (w : width) : string :=
  match w with W8 => "8" | W16 => "16" | W32 => "32" | W64 => "64" end.

(** A column of a pandas frame, by NumPy dtype.  An integer or boolean
    column has no missing value; a float column has NaN, a datetime column
    NaT and an object column [None], here [None] for the last two. *)
Inductive series : Type :=
| IntCol (signed : bool) (w : width) (cells : list Z)
| FloatCol (double : bool) (cells : list float)
| BoolCol (cells : list bool)
| DatetimeCol (cells : list (option datetime))
| ObjectCol (cells : list (option string)).

Record column : Type := mkColumn { label : string; values : series }.

(** A frame: its columns, all of one length. *)
Abbreviation DataFrame := (list column).

(** What [iloc] returns for a cell. *)
Inductive scalar : Type :=
| NA                                   (* None or NaT *)
| NpInt (z : Z)                        (* np.integer *)
| NpFloat (double : bool) (f : float)  (* np.floating; np.float64 is a float *)
| NpBool (b : bool)                    (* np.bool_ *)
| Timestamp (dt : datetime)            (* pd.Timestamp, a datetime *)
| Str (s : string).

Definition scalars (c : series) : list scalar :=
  match c with
  | IntCol _ _ l => map NpInt l
  | FloatCol d l => map (NpFloat d) l
  | BoolCol l => map NpBool l
  | DatetimeCol l => map (fun o => match o with Some t => Timestamp t | None => NA end) l
  | ObjectCol l => map (fun o => match o with Some t => Str t | None => NA end) l
  end.

(** [str(dtype)] *)
Definition dtype_str (c : series) : string :=
  match c with
  | IntCol sg w _ => (if sg then "int" else "uint") ++ width_str w
  | FloatCol d _ => if d then "float64" else "float32"
  | BoolCol _ => "bool"
  | DatetimeCol _ => "datetime64[ns]"
  | ObjectCol _ => "object"
  end.

(** [len(df)] *)
Definition len (df : DataFrame) : nat :=
  match df with
  | [] => 0%nat
  | c :: _ => length (scalars (values c))
  end.

(** [df.iloc[r, c]] for non-negative positions *)
Definition iloc (df : DataFrame) (r c : nat) : res scalar :=
  match df !! c with
  | Some col =>
      match scalars (values col) !! r with
      | Some v => Ret v
      | None => Raise IndexError
      end
  | None => Raise IndexError
  end.

(** [pd.isna(v)] *)
Definition isna (v : scalar) : bool :=
  match v with
  | NA => true
  | NpFloat _ f => is_nan f
  | _ => false
  end.

Record PandasTableModel : Type := mkModel {
  _data : DataFrame;
  _original_data : DataFrame
}.

(** [__init__(data)]: both fields are copies of [data], or empty frames. *)
Definition init (data : option DataFrame) : PandasTableModel :=
  match data with
  | Some d => mkModel d d
  | None => mkModel [] []
  end.

Definition rowCount (m : PandasTableModel) : nat := len (_data m).
Definition columnCount (m : PandasTableModel) : nat := length (_data m).

(** [data(index, DisplayRole)] *)
Definition data (m : PandasTableModel) (index : QModelIndex) : res (option string) :=
  match index with
  | Invalid => Ret None
  | Index r c =>
      value ← iloc (_data m) r c;
      if isna value then Ret (Some "")
      else
        match value with
        | NpInt z => Ret (Some (format_int z))
        | NpFloat _ f => Ret (Some (format_float f))
        | Timestamp dt => Ret (Some (strftime dt "%Y-%m-%d %H:%M:%S"))
        | NpBool b => Ret (Some (if b then "True" else "False"))
        | Str t => Ret (Some t)
        | NA => Ret (Some "")
        end
  end.

(** [headerData(section, Horizontal, DisplayRole)] *)
Definition headerData (m : PandasTableModel) (section : nat) : res string :=
  py_index (map label (_data m)) (Z.of_nat section).

(** [get_column_dtype(column)] *)
Definition get_column_dtype (m : PandasTableModel) (column : nat) : string :=
  match _data m !! column with
  | Some col => dtype_str (values col)
  | None => "object"
  end.

#[global] Instance table_model : TableModel PandasTableModel := {
  Qt.rowCount := rowCount;
  Qt.columnCount := columnCount;
  Qt.headerData := headerData;
  Qt.data := data
}.

(** The largest of the floats that are not NaN; NaN when there is none
    ([Series.max] skips the missing values). *)
Definition nanmax (l : list float) : float :=
  fold_left (fun acc x =>
               if is_nan x then acc
               else if is_nan acc then x
               else if float_le acc x then x else acc) l nan.

Definition column_floats (c : series) : list float :=
  match c with
  | FloatCol _ l => l
  | _ => []
  end.

(** [df.iloc[:, c].abs().max()], for the float columns that reach it *)
Definition abs_max (df : DataFrame) (c : nat) : float :=
  match df !! c with
  | Some col => nanmax (map float_abs (column_floats (values col)))
  | None => nan
  end.

(** The literal [1e-9] *)
Definition eps : float := float_of_decimal false 1 (-9).

(** [isinstance(v, (int, float))]: of the NumPy scalars only [np.float64]
    derives from a Python number type. *)
Definition is_int_or_float (v : scalar) : bool :=
  match v with
  | NpFloat true _ => true
  | _ => false
  end.

(** [data(index, BackgroundRole)] *)
Definition data_background (m : PandasTableModel) (index : QModelIndex)
  : res (option QColor) :=
  match index with
  | Invalid => Ret None
  | Index r c =>
      value ← iloc (_data m) r c;
      if is_int_or_float value && negb (isna value) then
        match value with
        | NpFloat _ f =>
            let normalized :=
              float_div (float_abs f) (float_add (abs_max (_data m) c) eps) in
            n ← int_of_float (float_mul (float_of_Z 255) normalized);
            let red := Z.min 255 n in
            let blue := 255 - red in
            Ret (Some (mkQColor red 200 blue))
        | _ => Ret None
        end
      else Ret None
  end.

(** *** Sorting *)

Definition take_series (c : series) (p : list nat) : series :=
  match c with
  | IntCol sg w l => IntCol sg w (reorder l p)
  | FloatCol d l => FloatCol d (reorder l p)
  | BoolCol l => BoolCol (reorder l p)
  | DatetimeCol l => DatetimeCol (reorder l p)
  | ObjectCol l => ObjectCol (reorder l p)
  end.

(** [df.take(p)]: the rows at the positions [p], in that order *)
Definition take (df : DataFrame) (p : list nat) : DataFrame :=
  map (fun c => mkColumn (label c) (take_series (values c) p)) df.

Section Sort.

(** The ordering routine of the library ([nargsort] with the default
    [kind='quicksort'] and [na_position='last']): it gives the positions of
    the keys in sorted order, ascending or not, or raises when the keys
    cannot be compared. *)
Variable argsort : list scalar -> bool -> res (list nat).

(** [df.sort_values(by=name, ascending=ascending)]: a label that names
    several columns raises [ValueError]; otherwise the rows are taken in
    the order [argsort] gives for the column. *)
Definition sort_values (df : DataFrame) (name : string) (ascending : bool)
  : res DataFrame :=
  match List.filter (fun c => String.eqb (label c) name) df with
  | [] => Raise KeyError
  | [c] => p ← argsort (scalars (values c)) ascending; Ret (take df p)
  | _ => Raise ValueError
  end.

Definition set_data (d : DataFrame) (m : PandasTableModel) : PandasTableModel :=
  mkModel d (_original_data m).

(** [sort(column, order)].  The failure that is caught prints a message
    and changes nothing. *)
Definition sort (column : Z) (order : SortOrder) : prog PandasTableModel unit :=
  emit layoutAboutToBeChanged;;
  d ← gets _data;
  col_name ← lift (py_index (map label d) column);
  let ascending := SortOrder_eqb order AscendingOrder in
  try_prog
    (d' ← lift (sort_values d col_name ascending);
     modify (set_data d'))
    (mret tt);;
  emit layoutChanged.

End Sort.

(** *** The other roles and the vertical header *)

(** [isinstance(v, (int, float, np.integer, np.floating))] *)
Definition is_number (v : scalar) : bool :=
  match v with
  | NpInt _ | NpFloat _ _ => true
  | _ => false
  end.

(** [data(index, TextAlignmentRole)] *)
Definition data_alignment (m : PandasTableModel) (index : QModelIndex)
  : res (option Z) :=
  match index with
  | Invalid => Ret None
  | Index r c =>
      value ← iloc (_data m) r c;
      if is_number value
      then Ret (Some (Z.lor AlignRight AlignVCenter))
      else Ret (Some (Z.lor AlignLeft AlignVCenter))
  end.

(** [headerData(section, orientation, role)] *)
Definition headerData_role (m : PandasTableModel) (section : Z)
  (orientation : Orientation) (role : ItemDataRole) : res (option string) :=
  if negb (is_DisplayRole role) then Ret None
  else
    match orientation with
    | Horizontal =>
        h ← py_index (map label (_data m)) section; Ret (Some h)
    | Vertical => Ret (Some (str_of_int (section + 1)))
    end.

(** [get_dataframe()]: a copy of the current frame *)
Definition get_dataframe (m : PandasTableModel) : DataFrame := _data m.

#[global] Instance typed_table_model : TypedTableModel PandasTableModel := {
  Qt.get_column_dtype := get_column_dtype
}.

End Pandas.

(** ** [PolarsTableModel] *)

Module Polars.

Export Pandas (width(..), width_str).

Inductive time_unit : Type := ms | us | ns.

(** A column of a polars frame, by dtype; [None] is the null value. *)
Inductive series : Type :=
| SInt (signed : bool) (w : width) (cells : list (option Z))
| SFloat (double : bool) (cells : list (option float))
| SBoolean (cells : list (option bool))
| SString (cells : list (option string))
| SDate (cells : list (option date))
| SDatetime (u : time_unit) (cells : list (option datetime)).

Record column : Type := mkColumn { name : string; values : series }.

(** A frame: its columns, all of one length and with distinct names. *)
Abbreviation DataFrame := (list column).

(** The Python value of a cell that is not null. *)
Inductive pvalue : Type :=
| PInt (z : Z)
| PFloat (f : float)
| PBool (b : bool)
| PStr (s : string)
| PDate (d : date)
| PDatetime (dt : datetime).

Definition pvalues (c : series) : list (option pvalue) :=
  match c with
  | SInt _ _ l => map (option_map PInt) l
  | SFloat _ l => map (option_map PFloat) l
  | SBoolean l => map (option_map PBool) l
  | SString l => map (option_map PStr) l
  | SDate l => map (option_map PDate) l
  | SDatetime _ l => map (option_map PDatetime) l
  end.

(** [str(dtype)] *)
Definition dtype_str (c : series) : string :=
  match c with
  | SInt sg w _ => (if sg then "Int" else "UInt") ++ width_str w
  | SFloat d _ => if d then "Float64" else "Float32"
  | SBoolean _ => "Boolean"
  | SString _ => "String"
  | SDate _ => "Date"
  | SDatetime u _ =>
      "Datetime(time_unit='" ++
      match u with ms => "ms" | us => "us" | ns => "ns" end ++
      "', time_zone=None)"
  end.

(** [df.height] and [df.width] *)
Definition height (df : DataFrame) : nat :=
  match df with
  | [] => 0%nat
  | c :: _ => length (pvalues (values c))
  end.

Definition width_of (df : DataFrame) : nat := length df.

Record PolarsTableModel : Type := mkModel {
  _data : DataFrame;
  _original_data : DataFrame
}.

Definition init (data : option DataFrame) : PolarsTableModel :=
  match data with
  | Some d => mkModel d d
  | None => mkModel [] []
  end.

Definition rowCount (m : PolarsTableModel) : nat := height (_data m).
Definition columnCount (m : PolarsTableModel) : nat := width_of (_data m).

(** [df[row, col]] with the column it lies in, for positions inside the
    frame.  The names of a polars frame are distinct, so the column named
    [df.columns[col]] is the one at [col]. *)
Definition cell (df : DataFrame) (row col : nat) : res (series * option pvalue) :=
  match df !! col with
  | Some c =>
      match pvalues (values c) !! row with
      | Some v => Ret (values c, v)
      | None => Raise IndexError
      end
  | None => Raise IndexError
  end.

(** [data(index, DisplayRole)].  The dtype of a column fixes the Python
    type of its values, so the tests on the dtype are the cases of the
    value: [int] for the integer dtypes, [float] for the float dtypes,
    [date] for [Date], [datetime] for [Datetime]; [str(value)] is left for
    [bool] and [str]. *)
Definition data (m : PolarsTableModel) (index : QModelIndex) : res (option string) :=
  match index with
  | Invalid => Ret None
  | Index row col =>
      if (row <? rowCount m)%nat && (col <? columnCount m)%nat then
        '(dtype, value) ← cell (_data m) row col;
        match value with
        | None => Ret (Some "")
        | Some v =>
            Ret (Some match v with
                      | PInt z => format_int z
                      | PFloat f => format_float f
                      | PDate d =>
                          strftime (mkDatetime (d_year d) (d_month d) (d_day d) 0 0 0)
                                   "%Y-%m-%d"
                      | PDatetime dt => strftime dt "%Y-%m-%d %H:%M:%S"
                      | PBool b => if b then "True" else "False"
                      | PStr t => t
                      end)
        end
      else Ret None
  end.

(** [headerData(section, Horizontal, DisplayRole)] *)
Definition headerData (m : PolarsTableModel) (section : nat) : res string :=
  py_index (map name (_data m)) (Z.of_nat section).

(** [get_column_dtype(column)]: the tag is decided by substrings of the
    name of the dtype. *)
Definition get_column_dtype (m : PolarsTableModel) (column : nat) : string :=
  match _data m !! column with
  | Some c =>
      let dtype := dtype_str (values c) in
      if contains "Int" dtype || contains "UInt" dtype then "int64"
      else if contains "Float" dtype then "float64"
      else if contains "Date" dtype then "datetime64[ns]"
      else "object"
  | None => "object"
  end.

#[global] Instance table_model : TableModel PolarsTableModel := {
  Qt.rowCount := rowCount;
  Qt.columnCount := columnCount;
  Qt.headerData := headerData;
  Qt.data := data
}.

(** [Series.max()] and [Series.min()]: nulls are skipped, and NaN too for
    floats; an integer column with a value that is not null has both. *)
Definition int_max (l : list (option Z)) : Z :=
  match omap id l with
  | [] => 0
  | x :: t => fold_left Z.max t x
  end.

Definition int_min (l : list (option Z)) : Z :=
  match omap id l with
  | [] => 0
  | x :: t => fold_left Z.min t x
  end.

Definition float_max (l : list (option float)) : float :=
  Pandas.nanmax (omap id l).

Definition float_min (l : list (option float)) : float :=
  fold_left (fun acc x =>
               if is_nan x then acc
               else if is_nan acc then x
               else if float_le x acc then x else acc) (omap id l) nan.

(** [QColor(red, 200, blue)] for a normalized magnitude *)
Definition gradient (normalized : float) : res (option QColor) :=
  n ← int_of_float (float_mul (float_of_Z 255) normalized);
  let red := Z.min 255 n in
  let blue := 255 - red in
  Ret (Some (mkQColor red 200 blue)).

(** [data(index, BackgroundRole)] *)
Definition data_background (m : PolarsTableModel) (index : QModelIndex)
  : res (option QColor) :=
  match index with
  | Invalid => Ret None
  | Index row col =>
      if (row <? rowCount m)%nat && (col <? columnCount m)%nat then
        '(dtype, value) ← cell (_data m) row col;
        match dtype, value with
        | SInt _ _ l, Some (PInt z) =>
            let max_val := int_max l in
            let min_val := int_min l in
            if negb (max_val =? min_val)
            then gradient (int_truediv (z - min_val) (max_val - min_val))
            else Ret None
        | SFloat _ l, Some (PFloat f) =>
            let max_val := float_max l in
            let min_val := float_min l in
            if float_ne max_val min_val
            then gradient (float_div (float_sub f min_val) (float_sub max_val min_val))
            else Ret None
        | _, _ => Ret None
        end
      else Ret None
  end.

(** *** Sorting *)

Definition take_series (c : series) (p : list nat) : series :=
  match c with
  | SInt sg w l => SInt sg w (reorder l p)
  | SFloat d l => SFloat d (reorder l p)
  | SBoolean l => SBoolean (reorder l p)
  | SString l => SString (reorder l p)
  | SDate l => SDate (reorder l p)
  | SDatetime u l => SDatetime u (reorder l p)
  end.

(** The rows at the positions [p], in that order *)
Definition take (df : DataFrame) (p : list nat) : DataFrame :=
  map (fun c => mkColumn (name c) (take_series (values c) p)) df.

Section Sort.

(** The ordering routine of the library (the sort of a column with the
    default [maintain_order=False] and nulls first): it gives the positions
    of the values in sorted order, descending or not, or raises. *)
Variable arg_sort : list (option pvalue) -> bool -> res (list nat).

(** [df.sort(name, descending=descending)] *)
Definition sort_by (df : DataFrame) (by_name : string) (descending : bool)
  : res DataFrame :=
  match List.find (fun c => String.eqb (name c) by_name) df with
  | Some c => p ← arg_sort (pvalues (values c)) descending; Ret (take df p)
  | None => Raise KeyError
  end.

Definition set_data (d : DataFrame) (m : PolarsTableModel) : PolarsTableModel :=
  mkModel d (_original_data m).

(** [sort(column, order)] *)
Definition sort (column : Z) (order : SortOrder) : prog PolarsTableModel unit :=
  emit layoutAboutToBeChanged;;
  d ← gets _data;
  col_name ← lift (py_index (map name d) column);
  let descending := SortOrder_eqb order DescendingOrder in
  try_prog
    (d' ← lift (sort_by d col_name descending);
     modify (set_data d'))
    (mret tt);;
  emit layoutChanged.

End Sort.

(** *** The other roles and the vertical header *)

(** [dtype in [pl.Int8, ..., pl.UInt64, pl.Float32, pl.Float64]] *)
Definition is_numeric_dtype (c : series) : bool :=
  match c with
  | SInt _ _ _ | SFloat _ _ => true
  | _ => false
  end.

(** [data(index, TextAlignmentRole)]: the row is not looked at, and the
    column is not checked against the width of the frame. *)
Definition data_alignment (m : PolarsTableModel) (index : QModelIndex)
  : res (option Z) :=
  match index with
  | Invalid => Ret None
  | Index row col =>
      match _data m !! col with
      | None => Raise IndexError
      | Some c =>
          if is_numeric_dtype (values c)
          then Ret (Some (Z.lor AlignRight AlignVCenter))
          else Ret (Some (Z.lor AlignLeft AlignVCenter))
      end
  end.

(** [headerData(section, orientation, role)] *)
Definition headerData_role (m : PolarsTableModel) (section : Z)
  (orientation : Orientation) (role : ItemDataRole) : res (option string) :=
  if negb (is_DisplayRole role) then Ret None
  else
    match orientation with
    | Horizontal =>
        h ← py_index (map name (_data m)) section; Ret (Some h)
    | Vertical => Ret (Some (str_of_int (section + 1)))
    end.

(** [get_dataframe()]: a clone of the current frame *)
Definition get_dataframe (m : PolarsTableModel) : DataFrame := _data m.

#[global] Instance typed_table_model : TypedTableModel PolarsTableModel := {
  Qt.get_column_dtype := get_column_dtype
}.

End Polars.

(** ** [DataConverter] *)

Module DataConverter.

(** Modelled from the library's documentation: [pl.from_pandas(df)] with
    its defaults.  Each NumPy dtype goes to the polars dtype of the same
    kind and width, [object] to [String] and [datetime64[ns]] to
    [Datetime('ns')]; NaN, NaT and [None] become null. *)
Definition from_pandas_series (c : Pandas.series) : Polars.series :=
  match c with
  | Pandas.IntCol sg w l => Polars.SInt sg w (map Some l)
  | Pandas.FloatCol d l =>
      Polars.SFloat d (map (fun f => if is_nan f then None else Some f) l)
  | Pandas.BoolCol l => Polars.SBoolean (map Some l)
  | Pandas.DatetimeCol l => Polars.SDatetime Polars.ns l
  | Pandas.ObjectCol l => Polars.SString l
  end.

(** [pandas_to_polars(df_pd)] *)
Definition pandas_to_polars (df_pd : Pandas.DataFrame) : Polars.DataFrame :=
  map (fun c => Polars.mkColumn (Pandas.label c) (from_pandas_series (Pandas.values c)))
      df_pd.

End DataConverter.

(** ** [SortFilterProxyModel] *)

Module SortFilterProxyModel.

(** The formats the date filter tries, in this order. *)
Definition date_formats : list string :=
  ["%Y-%m-%d %H:%M:%S"; "%Y-%m-%d"; "%d.%m.%Y"].

(** The [for fmt in ...: try ... break / except ValueError: continue]
    loop: [Some] the first date parsed, [None] when the loop runs to its
    [else]. *)
Fixpoint first_format (value : string) (fmts : list string) : res (option datetime) :=
  match fmts with
  | [] => Ret None
  | fmt :: rest =>
      try_except (date_val ← strptime value fmt; Ret (Some date_val))
                 [ValueError]
                 (first_format value rest)
  end.

(** The bodies of the four branches of [apply_filter].  Each gives
    [Some b] when it executes [return b] and [None] when it falls out of
    the [if] chain. *)

(** The inner [try] of the [range] branch *)
Definition range_body (value : option string) (min_val max_val : PyVal)
  : res (option bool) :=
  num_val ← float_of_str (remove_char "," (str_of value));
  b ← chained_le min_val (VFloat num_val) max_val;
  Ret (Some b).

Definition text_body (value : option string) (filter_data : dict)
  : res (option bool) :=
  search_text ←
    match get_default filter_data "value" (VStr "") with
    | VStr t => Ret (lower t)
    | _ => Raise AttributeError
    end;
  if String.eqb search_text "" then Ret (Some true)
  else Ret (Some (contains search_text (lower (str_of value)))).

(** The inner [try] of the [date] branch.  A value that is not a string
    can only be [None], which has no [date] method. *)
Definition date_body (value : option string) (date_from date_to : PyVal)
  : res (option bool) :=
  match value with
  | Some v =>
      r ← first_format v date_formats;
      match r with
      | None => Ret (Some false)
      | Some date_val =>
          b ← chained_le date_from (VDate (date_of date_val)) date_to;
          Ret (Some b)
      end
  | None => Raise AttributeError
  end.

Definition bool_body (value : option string) (filter_data : dict)
  : res (option bool) :=
  let filter_value := get filter_data "value" in
  let value_str := lower (str_of value) in
  match filter_value with
  | VBool true => Ret (Some (str_in value_str ["true"; "1"; "да"; "yes"]))
  | VBool false => Ret (Some (str_in value_str ["false"; "0"; "нет"; "no"]))
  | _ => Ret None
  end.

(** The body of the outer [try] *)
Definition filter_body (value : option string) (filter_data : dict)
  : res (option bool) :=
  let filter_type := get filter_data "type" in
  if eq_str filter_type "range" then
    let min_val := get_default filter_data "min" (VFloat neg_inf) in
    let max_val := get_default filter_data "max" (VFloat inf) in
    try_except (range_body value min_val max_val)
               [ValueError; TypeError]
               (Ret (Some false))
  else if eq_str filter_type "text" then
    text_body value filter_data
  else if eq_str filter_type "date" then
    let date_from := get filter_data "from" in
    let date_to := get filter_data "to" in
    try_except (date_body value date_from date_to)
               [ValueError; TypeError; AttributeError]
               (Ret (Some false))
  else if eq_str filter_type "bool" then
    bool_body value filter_data
  else Ret None.

(** [apply_filter(value, filter_data)] *)
Definition apply_filter (value : option string) (filter_data : dict) : res bool :=
  r ← try_except_Exception (filter_body value filter_data) (Ret (Some true));
  match r with
  | Some b => Ret b
  | None => Ret true
  end.

Section Proxy.

Context {M : Type} `{TableModel M}.

(** The scan of the header labels: the first column whose label is
    [col_name], [None] for [col_index == -1]. *)
Fixpoint find_column_from (source_model : M) (col_name : string) (i n : nat)
  : res (option nat) :=
  match n with
  | O => Ret None
  | S n' =>
      h ← headerData source_model i;
      if String.eqb h col_name then Ret (Some i)
      else find_column_from source_model col_name (S i) n'
  end.

Definition find_column (source_model : M) (col_name : string) : res (option nat) :=
  find_column_from source_model col_name 0 (columnCount source_model).

(** The loop over [self._filters.items()] *)
Fixpoint accepts_all (source_model : M) (source_row : Z)
  (filters : list (string * dict)) : res bool :=
  match filters with
  | [] => Ret true
  | (col_name, filter_data) :: rest =>
      col_index ← find_column source_model col_name;
      match col_index with
      | None => accepts_all source_model source_row rest
      | Some i =>
          value ← data source_model (index source_model source_row (Z.of_nat i));
          ok ← apply_filter value filter_data;
          if ok : bool then accepts_all source_model source_row rest
          else Ret false
      end
  end.

(** [filterAcceptsRow(source_row, source_parent)].  [sourceModel()] is
    [None] until a model is set; [_filters] lists the items of the dict in
    insertion order. *)
Definition filterAcceptsRow (sourceModel : option M)
  (_filters : list (string * dict)) (source_row : Z) : res bool :=
  match sourceModel with
  | None => Ret true
  | Some source_model => accepts_all source_model source_row _filters
  end.



End Proxy.

End SortFilterProxyModel.

Import SortFilterProxyModel.

(** ** [FilterDialog] ([main.py]) *)

Module FilterDialog.

(** The widgets the dialog keeps for a column, with the values they hold
    when the dialog is accepted: two spin boxes, a line edit, two date
    edits, or a combo box whose items carry [None], [True] and [False]. *)
Inductive widgets : Type :=
| RangeWidgets (min max : float) (dtype : string)
| TextWidget (text : string)
| DateWidgets (date_from date_to : date)
| BoolWidget (currentData : option bool).

(** The literals [1e9] and [-1e9] *)
Definition billion : float := float_of_decimal false 1 9.
Definition minus_billion : float := float_of_decimal true 1 9.

(** Modelled from the library's documentation: [QDate.addYears(n)], which
    keeps the month and takes the last day of the month when the day does
    not exist in the new year. *)
Definition addYears (d : date) (n : Z) : date :=
  let y := d_year d + n in
  mkDate y (d_month d) (Z.min (d_day d) (days_in_month y (d_month d))).

(** The widgets [init_ui] makes for a type tag, with their first values;
    [today] is [QDate.currentDate()].  A tag outside the four cases gets a
    group box without widgets. *)
Definition widgets_for (dtype : string) (today : date) : option widgets :=
  if str_in dtype ["int64"; "float64"; "int32"; "float32"]
  then Some (RangeWidgets minus_billion billion dtype)
  else if String.eqb dtype "object" then Some (TextWidget "")
  else if String.eqb dtype "datetime64[ns]"
       then Some (DateWidgets (addYears today (-1)) today)
  else if String.eqb dtype "bool" then Some (BoolWidget None)
  else None.

Section Dialog.

Context {M : Type} `{TypedTableModel M}.

(** The loop of [init_ui] over [range(source_model.columnCount())] *)
Fixpoint init_columns (source_model : M) (today : date) (col n : nat)
  (column_widgets : list (string * widgets)) : res (list (string * widgets)) :=
  match n with
  | O => Ret column_widgets
  | S n' =>
      column_name ← headerData source_model col;
      let dtype := get_column_dtype source_model col in
      init_columns source_model today (S col) n'
        match widgets_for dtype today with
        | Some w => dict_set column_name w column_widgets
        | None => column_widgets
        end
  end.

(** [init_ui()]: the dict [column_widgets], which is not created when the
    proxy has no source model. *)
Definition init_ui (source_model : option M) (today : date)
  : res (option (list (string * widgets))) :=
  match source_model with
  | None => Ret None
  | Some m =>
      column_widgets ← init_columns m today 0 (columnCount m) [];
      Ret (Some column_widgets)
  end.

End Dialog.

(** The descriptor [get_filters] builds from the widgets of one column;
    the empty dict when the widgets hold their neutral values. *)
Definition filter_data_of (w : widgets) : dict :=
  match w with
  | RangeWidgets min_val max_val _ =>
      if float_gt min_val minus_billion || float_lt max_val billion
      then <["type" := VStr "range"]>
             (<["min" := VFloat min_val]> (<["max" := VFloat max_val]> ∅))
      else ∅
  | TextWidget t =>
      let text := strip t in
      if negb (String.eqb text "")
      then <["type" := VStr "text"]> (<["value" := VStr text]> ∅)
      else ∅
  | DateWidgets date_from date_to =>
      <["type" := VStr "date"]>
        (<["from" := VDate date_from]> (<["to" := VDate date_to]> ∅))
  | BoolWidget value =>
      match value with
      | Some b => <["type" := VStr "bool"]> (<["value" := VBool b]> ∅)
      | None => ∅
      end
  end.

(** [get_filters()]: a descriptor is kept when it is not empty. *)
Definition get_filters (column_widgets : list (string * widgets))
  : list (string * dict) :=
  fold_left
    (fun filters '(col_name, w) =>
       let filter_data := filter_data_of w in
       if bool_decide (size filter_data = 0%nat) then filters
       else dict_set col_name filter_data filters)
    column_widgets [].

End FilterDialog.

(** * What the specification says, and the data of its examples *)

Module Spec.

(** The [range] descriptor [{'type': 'range', 'min': a, 'max': b}] *)
Definition range_filter (a b : float) : dict :=
  <["type" := VStr "range"]> (<["min" := VFloat a]> (<["max" := VFloat b]> ∅)).

(** The [date] descriptor [{'type': 'date', 'from': a, 'to': b}] *)
Definition date_filter (a b : date) : dict :=
  <["type" := VStr "date"]> (<["from" := VDate a]> (<["to" := VDate b]> ∅)).



(** The column [3, 5, 7, 10, 12] of the range example, in each backend *)
Definition example_pandas : Pandas.PandasTableModel :=
  Pandas.init (Some [Pandas.mkColumn "n" (Pandas.IntCol true Pandas.W64 [3; 5; 7; 10; 12])]).

Definition example_polars : Polars.PolarsTableModel :=
  Polars.init (Some (DataConverter.pandas_to_polars (Pandas._data example_pandas))).




(** The two models of one pandas frame: the pandas model of the frame and
    the polars model of its conversion by [pandas_to_polars]. *)
Definition pandas_model (df : Pandas.DataFrame) : Pandas.PandasTableModel :=
  Pandas.init (Some df).







Definition constant_pandas : Pandas.PandasTableModel :=
  Pandas.init (Some [Pandas.mkColumn "x" (Pandas.FloatCol true [float_of_Z 2; float_of_Z 2]);
                     Pandas.mkColumn "n" (Pandas.IntCol true Pandas.W64 [1; 3])]).


(** *** Sorting *)

#[global] Instance spec_float_eq_dec : EqDecision spec_float.
Proof. solve_decision. Defined.
#[global] Instance datetime_eq_dec : EqDecision datetime.
Proof. solve_decision. Defined.
#[global] Instance date_eq_dec : EqDecision date.
Proof. solve_decision. Defined.
#[global] Instance pandas_scalar_eq_dec : EqDecision Pandas.scalar.
Proof. solve_decision. Defined.
#[global] Instance polars_pvalue_eq_dec : EqDecision Polars.pvalue.
Proof. solve_decision. Defined.



(** A well-formed frame: all columns have [n] rows. *)
Definition pandas_rows (n : nat) (df : Pandas.DataFrame) : Prop :=
  Forall (fun c => length (Pandas.scalars (Pandas.values c)) = n) df.

Definition polars_rows (n : nat) (df : Polars.DataFrame) : Prop :=
  Forall (fun c => length (Polars.pvalues (Polars.values c)) = n) df.

(** Ordering routines to run the models with.  [insert_position] puts the
    position [i] before the first position whose key is not before the key
    of [i], so that equal keys stay in the order of their positions. *)
Fixpoint insert_position (before : nat -> nat -> bool) (i : nat) (p : list nat)
  : list nat :=
  match p with
  | [] => [i]
  | j :: p' => if before j i then j :: insert_position before i p' else i :: p
  end.

Definition int_key (v : Pandas.scalar) : option Z :=
  match v with
  | Pandas.NpInt z => Some z
  | _ => None
  end.

(** A stable ordering of integer keys; keys of another type are refused
    with [TypeError]. *)
Definition int_argsort (ks : list Pandas.scalar) (ascending : bool)
  : res (list nat) :=
  match mapM int_key ks with
  | None => Raise TypeError
  | Some zs =>
      let key i := default 0 (zs !! i) in
      let before j i := if ascending then key j <? key i else key i <? key j in
      Ret (foldr (insert_position before) [] (seq 0 (length zs)))
  end.



Definition failing_arg_sort (ks : list (option Polars.pvalue)) (descending : bool)
  : res (list nat) := Raise TypeError.


(** Two rows with the same key and different payloads *)
Definition ties_frame : Pandas.DataFrame :=
  [Pandas.mkColumn "k" (Pandas.IntCol true Pandas.W64 [2; 1; 2; 1]);
   Pandas.mkColumn "v" (Pandas.ObjectCol [Some "a"; Some "b"; Some "c"; Some "d"])].

Definition ties_polars : Polars.DataFrame := DataConverter.pandas_to_polars ties_frame.

(** *** Numerals and descriptors *)

(** A string of decimal digits *)
Fixpoint all_digits (s : string) : bool :=
  match s with
  | EmptyString => true
  | String c t => is_digit c && all_digits t
  end.

(** What may follow a numeral: the end of the string, or a character that
    is not a digit. *)
Definition stops (rest : string) : Prop :=
  match rest with
  | EmptyString => True
  | String c _ => is_digit c = false
  end.

(** The characters of a number in fixed notation: the digits and the
    point. *)
Definition plain (c : ascii) : bool := is_digit c || Ascii.eqb c ".".

Fixpoint all_plain (s : string) : bool :=
  match s with
  | EmptyString => true
  | String c t => plain c && all_plain t
  end.

(** The character of the digit [d] *)
Definition digit_char (d : Z) : ascii := ascii_of_N (Z.to_N (48 + d)).

(** The [text] descriptor [{'type': 'text', 'value': t}] *)
Definition text_filter (t : string) : dict :=
  <["type" := VStr "text"]> (<["value" := VStr t]> ∅).

(** The [bool] descriptor [{'type': 'bool', 'value': b}] *)
Definition bool_filter (b : bool) : dict :=
  <["type" := VStr "bool"]> (<["value" := VBool b]> ∅).

(** The number a float cell shows: its value rounded to hundredths, as a
    float again.  Infinities and NaN are shown by name. *)
Definition shown_float (x : float) : float :=
  match x with
  | S754_finite s m e => float_of_decimal s (hundredths m e) (-2)
  | _ => x
  end.

(** A frame with a datetime column and a boolean column *)
Definition dated_frame : Pandas.DataFrame :=
  [Pandas.mkColumn "n" (Pandas.IntCol true Pandas.W64 [1; 2]);
   Pandas.mkColumn "when"
     (Pandas.DatetimeCol [Some (mkDatetime 2024 3 1 12 0 0); None]);
   Pandas.mkColumn "ok" (Pandas.BoolCol [true; false])].

(** *** Date fields *)








End Spec.

Import Spec.

(** Case analysis on the eight bits of a character *)
Ltac by_bits c := destruct c as [[|] [|] [|] [|] [|] [|] [|] [|]].

(** * Properties *)

(** ** The filter evaluator *)

Lemma strptime_raises_ValueError s fmt e :
  strptime s fmt = Raise e -> e = ValueError.
Proof.
  unfold strptime.
  destruct (match_format _ _ _) as [[dt rest]|]; [|congruence].
  destruct (negb _); [congruence|].
  destruct (datetime_valid dt); congruence.
Qed.

Lemma float_of_str_raises_ValueError s e :
  float_of_str s = Raise e -> e = ValueError.
Proof.
  unfold float_of_str. destruct (parse_float s); congruence.
Qed.

(** The loop over the formats never raises. *)
Lemma first_format_total value fmts :
  exists r, first_format value fmts = Ret r.
Proof.
  induction fmts as [|fmt rest IH]; simpl; [eauto|].
  destruct (strptime value fmt) as [dt|e] eqn:E; simpl; [eauto|].
  apply strptime_raises_ValueError in E as ->. simpl. exact IH.
Qed.



Lemma get_Some (fd : dict) k v : fd !! k = Some v -> get fd k = v.
Proof. unfold get. now intros ->. Qed.



(** What [apply_filter] computes for a range descriptor, whatever its
    bounds are. *)
Lemma apply_filter_range value fd :
  fd !! "type" = Some (VStr "range") ->
  apply_filter value fd =
  match try_except
          (range_body value (get_default fd "min" (VFloat neg_inf))
                            (get_default fd "max" (VFloat inf)))
          [ValueError; TypeError] (Ret (Some false))
  with
  | Ret (Some b) => Ret b
  | _ => Ret true
  end.
Proof.
  intros Ht. unfold apply_filter, filter_body. rewrite (get_Some _ _ _ Ht).
  change (eq_str (VStr "range") "range") with true. cbv iota.
  destruct (try_except _ _ _) as [[b|]|e]; reflexivity.
Qed.

Lemma range_body_parsed value x a b lo hi :
  parse_float (remove_char "," (str_of value)) = Some x ->
  as_number a = Some lo -> as_number b = Some hi ->
  range_body value a b
  = Ret (Some (number_le lo (inr x) && number_le (inr x) hi)).
Proof.
  intros Hp Ha Hb. unfold range_body, float_of_str. rewrite Hp.
  unfold chained_le, py_le. rewrite Ha, Hb. cbn.
  destruct (number_le lo (inr x)); reflexivity.
Qed.






Lemma py_le_raises_TypeError a b e : py_le a b = Raise e -> e = TypeError.
Proof.
  unfold py_le.
  destruct (as_number a) as [[?|?]|]; destruct (as_number b) as [[?|?]|];
    try discriminate; destruct a, b; congruence.
Qed.

Lemma chained_le_raises_TypeError a b c e :
  chained_le a b c = Raise e -> e = TypeError.
Proof.
  unfold chained_le. destruct (py_le a b) as [[|]|e1] eqn:E1; cbn.
  - apply py_le_raises_TypeError.
  - discriminate.
  - intros [= <-]. eapply py_le_raises_TypeError, E1.
Qed.

Lemma range_body_raises value a b e :
  range_body value a b = Raise e -> e = ValueError \/ e = TypeError.
Proof.
  unfold range_body.
  destruct (float_of_str _) as [x|e1] eqn:E1; cbn.
  - destruct (chained_le a (VFloat x) b) as [r|e2] eqn:E2; cbn; [discriminate|].
    intros [= <-]. right. eapply chained_le_raises_TypeError, E2.
  - intros [= <-]. left. eapply float_of_str_raises_ValueError, E1.
Qed.

Lemma date_body_raises value a b e :
  date_body value a b = Raise e -> e = TypeError \/ e = AttributeError.
Proof.
  unfold date_body. destruct value as [v|]; [|intros [= <-]; now right].
  destruct (first_format_total v date_formats) as [[dt|] ->]; cbn; [|discriminate].
  destruct (chained_le a _ b) as [r|e2] eqn:E2; cbn; [discriminate|].
  intros [= <-]. left. eapply chained_le_raises_TypeError, E2.
Qed.

Lemma text_body_raises value fd e :
  text_body value fd = Raise e -> e = AttributeError.
Proof.
  unfold text_body.
  destruct (get_default fd "value" (VStr "")); cbn; try congruence.
  destruct (String.eqb _ _); discriminate.
Qed.

Lemma eq_str_get (fd : dict) k s :
  eq_str (get fd k) s = true -> fd !! k = Some (VStr s).
Proof.
  unfold get. destruct (fd !! k) as [[]|]; cbn; try discriminate.
  now intros ->%String.eqb_eq.
Qed.

(** What [apply_filter] computes for a date descriptor. *)
Lemma apply_filter_date value fd :
  fd !! "type" = Some (VStr "date") ->
  apply_filter value fd =
  match try_except (date_body value (get fd "from") (get fd "to"))
                   [ValueError; TypeError; AttributeError] (Ret (Some false))
  with
  | Ret (Some b) => Ret b
  | _ => Ret true
  end.
Proof.
  intros Ht. unfold apply_filter, filter_body. rewrite (get_Some _ _ _ Ht).
  change (eq_str (VStr "date") "range") with false.
  change (eq_str (VStr "date") "text") with false.
  change (eq_str (VStr "date") "date") with true. cbv iota.
  destruct (try_except _ _ _) as [[b|]|e]; reflexivity.
Qed.

(** Only the text branch lets an exception reach the outer handler. *)
Lemma filter_body_raises value fd e :
  filter_body value fd = Raise e ->
  fd !! "type" = Some (VStr "text") /\ text_body value fd = Raise e.
Proof.
  unfold filter_body.
  destruct (eq_str (get fd "type") "range") eqn:Hr.
  { destruct (range_body _ _ _) as [r|e1] eqn:E1; cbn; [discriminate|].
    destruct (range_body_raises _ _ _ _ E1) as [-> | ->]; discriminate. }
  destruct (eq_str (get fd "type") "text") eqn:Ht.
  { intros E. split; [now apply eq_str_get | exact E]. }
  destruct (eq_str (get fd "type") "date") eqn:Hd.
  { destruct (date_body _ _ _) as [r|e1] eqn:E1; cbn; [discriminate|].
    destruct (date_body_raises _ _ _ _ E1) as [-> | ->]; discriminate. }
  destruct (eq_str (get fd "type") "bool"); [|discriminate].
  unfold bool_body. destruct (get fd "value") as [|[|]| | | | |]; discriminate.
Qed.


(** C5 (as amended): inside a range predicate every [ValueError] and
    [TypeError], and inside a date predicate every [TypeError] and
    [AttributeError], excludes the row, whether it comes from parsing the
    cell or from comparing with a bound; so does a cell that does not
    parse.  An exception that reaches the outer handler retains the row,
    and in this model that is the [AttributeError] of a text predicate
    whose search value is not a string. *)
Theorem filter_failure_policy :
  forall (value : option string) (fd : dict),
    (fd !! "type" = Some (VStr "range") ->
     forall e,
       range_body value (get_default fd "min" (VFloat neg_inf))
                        (get_default fd "max" (VFloat inf)) = Raise e ->
       (e = ValueError \/ e = TypeError) /\ apply_filter value fd = Ret false) /\
    (fd !! "type" = Some (VStr "range") ->
     float_of_str (remove_char "," (str_of value)) = Raise ValueError ->
     apply_filter value fd = Ret false) /\
    (fd !! "type" = Some (VStr "date") ->
     forall e,
       date_body value (get fd "from") (get fd "to") = Raise e ->
       (e = TypeError \/ e = AttributeError) /\ apply_filter value fd = Ret false) /\
    (fd !! "type" = Some (VStr "date") ->
     forall v, value = Some v -> first_format v date_formats = Ret None ->
     apply_filter value fd = Ret false) /\
    (forall e, filter_body value fd = Raise e ->
       fd !! "type" = Some (VStr "text") /\ e = AttributeError /\
       apply_filter value fd = Ret true).
Proof.
  intros value fd. repeat apply conj.
  - intros Ht e E. split; [eapply range_body_raises, E|].
    rewrite (apply_filter_range _ _ Ht), E.
    destruct (range_body_raises _ _ _ _ E) as [-> | ->]; reflexivity.
  - intros Ht E. rewrite (apply_filter_range _ _ Ht).
    unfold range_body. now rewrite E.
  - intros Ht e E. split; [eapply date_body_raises, E|].
    rewrite (apply_filter_date _ _ Ht), E.
    destruct (date_body_raises _ _ _ _ E) as [-> | ->]; reflexivity.
  - intros Ht v -> E. rewrite (apply_filter_date _ _ Ht).
    unfold date_body. now rewrite E.
  - intros e E. destruct (filter_body_raises _ _ _ E) as [Ht Et].
    split; [exact Ht|]. split; [eapply text_body_raises, Et|].
    unfold apply_filter. now rewrite E.
Qed.

Lemma filter_failure_policy_witness :
  apply_filter (Some "North") (<["type" := VStr "text"]> (<["value" := VInt 5]> ∅))
  = Ret true
  /\ apply_filter (Some "abc") (<["type" := VStr "range"]> ∅) = Ret false.
Proof.
  split.
  - apply (proj2 (proj2 (proj2 (proj2
              (filter_failure_policy (Some "North")
                 (<["type" := VStr "text"]> (<["value" := VInt 5]> ∅))))))
             AttributeError).
    vm_compute; reflexivity.
  - apply (proj1 (proj2 (filter_failure_policy (Some "abc")
                           (<["type" := VStr "range"]> ∅))));
      vm_compute; reflexivity.
Defined.

(** C5 (as stated) fails: the cell ["5"] parses, the comparison with a
    [min] bound that is [None] raises [TypeError] during the evaluation of
    the range predicate, and the row is excluded, not retained.  The same
    holds of a date predicate without bounds. *)
Lemma unexpected_error_excludes_row :
  let fd : dict := <["type" := VStr "range"]> (<["min" := VNone]> ∅) in
  let fd' : dict := <["type" := VStr "date"]> ∅ in
  float_of_str (remove_char "," (str_of (Some "5"))) = Ret (float_of_Z 5) /\
  range_body (Some "5") (get_default fd "min" (VFloat neg_inf))
                        (get_default fd "max" (VFloat inf)) = Raise TypeError /\
  apply_filter (Some "5") fd = Ret false /\
  first_format "2024-03-01" date_formats = Ret (Some (mkDatetime 2024 3 1 0 0 0)) /\
  date_body (Some "2024-03-01") (get fd' "from") (get fd' "to") = Raise TypeError /\
  apply_filter (Some "2024-03-01") fd' = Ret false.
Proof. vm_compute. repeat split; reflexivity. Qed.



(** ** The filter proxy *)

Section ProxyFacts.

Context {M : Type} `{TableModel M}.

(** The scan returns the first column whose header is the name. *)
Lemma find_column_from_Some (m : M) name n : forall i k,
  find_column_from m name i n = Ret (Some k) <->
  (i <= k < i + n)%nat /\ headerData m k = Ret name /\
  forall j, (i <= j < k)%nat -> exists h, headerData m j = Ret h /\ h <> name.
Proof.
  induction n as [|n IH]; intros i k; cbn [find_column_from].
  - split; [discriminate | intros [? _]; lia].
  - destruct (headerData m i) as [h|e] eqn:Eh; cbn.
    + destruct (String.eqb h name) eqn:En.
      * apply String.eqb_eq in En as ->. split.
        -- intros [= <-]. split; [lia|]. split; [exact Eh|]. intros j ?; lia.
        -- intros (Hk & Hh & Hlt). f_equal. f_equal.
           destruct (decide (i = k)) as [|Hne]; [assumption|].
           destruct (Hlt i ltac:(lia)) as (h & Eh' & Hn). congruence.
      * apply String.eqb_neq in En. rewrite IH. split.
        -- intros (Hk & Hh & Hlt). split; [lia|]. split; [exact Hh|].
           intros j Hj. destruct (decide (j = i)) as [->|]; [eauto|].
           apply Hlt. lia.
        -- intros (Hk & Hh & Hlt). split; [|split; [exact Hh|]].
           ++ destruct (decide (i = k)) as [->|]; [congruence | lia].
           ++ intros j Hj. apply Hlt. lia.
    + split; [discriminate|]. intros (Hk & Hh & Hlt).
      destruct (decide (i = k)) as [->|]; [congruence|].
      destruct (Hlt i ltac:(lia)) as (h & Eh' & _). congruence.
Qed.





End ProxyFacts.

(** ** The two table models on the same data *)

Lemma lookup_map {A B} (f : A -> B) (l : list A) (i : nat) :
  map f l !! i = option_map f (l !! i).
Proof.
  revert i. induction l as [|a l IH]; intros [|i]; cbn; try reflexivity.
  apply IH.
Qed.










(** ** The background colour *)













(** ** Sorting *)

Lemma py_index_raises {A} (l : list A) i e : py_index l i = Raise e -> e = IndexError.
Proof.
  unfold py_index. destruct (_ && _); [|congruence].
  destruct (nth_error _ _); congruence.
Qed.


Lemma py_index_out_of_range {A} (l : list A) i :
  ~ (- Z.of_nat (length l) <= i < Z.of_nat (length l)) ->
  py_index l i = Raise IndexError.
Proof.
  intros Hi. unfold py_index.
  set (j := if i <? 0 then i + Z.of_nat (length l) else i).
  assert (Hj : ~ (0 <= j < Z.of_nat (length l))).
  { subst j. destruct (Z.ltb_spec i 0); lia. }
  destruct (Z.leb_spec 0 j); destruct (Z.ltb_spec j (Z.of_nat (length l)));
    cbn [andb]; try reflexivity; lia.
Qed.

(** [sort] in one step: the signal before, the look-up of the column, the
    guarded reorder, the signal after. *)
Lemma pandas_sort_run argsort column order m log :
  Pandas.sort argsort column order m log =
  match py_index (map Pandas.label (Pandas._data m)) column with
  | Raise e => (Raise e, m, (log ++ [layoutAboutToBeChanged])%list)
  | Ret col_name =>
      (Ret tt,
       match Pandas.sort_values argsort (Pandas._data m) col_name
               (SortOrder_eqb order AscendingOrder) with
       | Ret d => Pandas.set_data d m
       | Raise _ => m
       end,
       (log ++ [layoutAboutToBeChanged; layoutChanged])%list)
  end.
Proof.
  unfold Pandas.sort, emit, gets, lift, try_prog, modify.
  unfold mbind, prog_mbind, prog_bind, mret, prog_mret, prog_ret. cbv beta iota.
  destruct (py_index _ column) as [col_name|e]; [|reflexivity].
  destruct (Pandas.sort_values _ _ _ _) as [d|e]; now rewrite <- app_assoc.
Qed.

Lemma polars_sort_run arg_sort column order m log :
  Polars.sort arg_sort column order m log =
  match py_index (map Polars.name (Polars._data m)) column with
  | Raise e => (Raise e, m, (log ++ [layoutAboutToBeChanged])%list)
  | Ret col_name =>
      (Ret tt,
       match Polars.sort_by arg_sort (Polars._data m) col_name
               (SortOrder_eqb order DescendingOrder) with
       | Ret d => Polars.set_data d m
       | Raise _ => m
       end,
       (log ++ [layoutAboutToBeChanged; layoutChanged])%list)
  end.
Proof.
  unfold Polars.sort, emit, gets, lift, try_prog, modify.
  unfold mbind, prog_mbind, prog_bind, mret, prog_mret, prog_ret. cbv beta iota.
  destruct (py_index _ column) as [col_name|e]; [|reflexivity].
  destruct (Polars.sort_by _ _ _ _) as [d|e]; now rewrite <- app_assoc.
Qed.




(** C6: when the reorder inside [sort] fails, be it the ordering routine
    that raises on the keys or [sort_values] for another reason, the call
    returns normally, the model is exactly what it was, and both signals
    have been emitted. *)
Theorem sort_failure_leaves_data :
  (forall argsort (m : Pandas.PandasTableModel) column order log col_name e,
      py_index (map Pandas.label (Pandas._data m)) column = Ret col_name ->
      Pandas.sort_values argsort (Pandas._data m) col_name
        (SortOrder_eqb order AscendingOrder) = Raise e ->
      Pandas.sort argsort column order m log
      = (Ret tt, m, (log ++ [layoutAboutToBeChanged; layoutChanged])%list)) /\
  (forall argsort (m : Pandas.PandasTableModel) column order log col_name col e,
      py_index (map Pandas.label (Pandas._data m)) column = Ret col_name ->
      List.filter (fun c => String.eqb (Pandas.label c) col_name) (Pandas._data m) = [col] ->
      argsort (Pandas.scalars (Pandas.values col)) (SortOrder_eqb order AscendingOrder)
      = Raise e ->
      Pandas.sort argsort column order m log
      = (Ret tt, m, (log ++ [layoutAboutToBeChanged; layoutChanged])%list)) /\
  (forall arg_sort (m : Polars.PolarsTableModel) column order log col_name e,
      py_index (map Polars.name (Polars._data m)) column = Ret col_name ->
      Polars.sort_by arg_sort (Polars._data m) col_name
        (SortOrder_eqb order DescendingOrder) = Raise e ->
      Polars.sort arg_sort column order m log
      = (Ret tt, m, (log ++ [layoutAboutToBeChanged; layoutChanged])%list)) /\
  (forall arg_sort (m : Polars.PolarsTableModel) column order log col_name col e,
      py_index (map Polars.name (Polars._data m)) column = Ret col_name ->
      List.find (fun c => String.eqb (Polars.name c) col_name) (Polars._data m) = Some col ->
      arg_sort (Polars.pvalues (Polars.values col)) (SortOrder_eqb order DescendingOrder)
      = Raise e ->
      Polars.sort arg_sort column order m log
      = (Ret tt, m, (log ++ [layoutAboutToBeChanged; layoutChanged])%list)).
Proof.
  split; [|split; [|split]].
  - intros argsort m column order log col_name e Hi Hs.
    now rewrite pandas_sort_run, Hi, Hs.
  - intros argsort m column order log col_name col e Hi Hf Hs.
    rewrite pandas_sort_run, Hi. unfold Pandas.sort_values. now rewrite Hf, Hs.
  - intros arg_sort m column order log col_name e Hi Hs.
    now rewrite polars_sort_run, Hi, Hs.
  - intros arg_sort m column order log col_name col e Hi Hf Hs.
    rewrite polars_sort_run, Hi. unfold Polars.sort_by. now rewrite Hf, Hs.
Qed.

Lemma sort_failure_leaves_data_witness :
  Pandas.sort int_argsort 1 AscendingOrder (pandas_model ties_frame) []
  = (Ret tt, pandas_model ties_frame, [layoutAboutToBeChanged; layoutChanged])
  /\ Polars.sort failing_arg_sort 0 DescendingOrder (Polars.init (Some ties_polars)) []
     = (Ret tt, Polars.init (Some ties_polars), [layoutAboutToBeChanged; layoutChanged]).
Proof.
  split.
  - apply (proj1 (proj2 sort_failure_leaves_data) int_argsort (pandas_model ties_frame)
             1 AscendingOrder [] "v"
             (Pandas.mkColumn "v" (Pandas.ObjectCol [Some "a"; Some "b"; Some "c"; Some "d"]))
             TypeError); vm_compute; reflexivity.
  - apply (proj1 (proj2 (proj2 sort_failure_leaves_data)) failing_arg_sort
             (Polars.init (Some ties_polars)) 0 DescendingOrder [] "k" TypeError);
      vm_compute; reflexivity.
Defined.

(** *** Orders of positions *)

Lemma reorder_lookup {A} (l : list A) p i :
  Forall (fun j => (j < length l)%nat) p ->
  reorder l p !! i = match p !! i with Some j => l !! j | None => None end.
Proof.
  intros Hp. revert i. induction Hp as [|j p Hj Hp IH]; intros i; [reflexivity|].
  unfold reorder in *. cbn [omap list_omap].
  destruct (lookup_lt_is_Some_2 l j Hj) as [x Hx]. rewrite Hx.
  destruct i as [|i]; cbn; [now rewrite Hx | apply IH].
Qed.

Lemma length_reorder {A} (l : list A) p :
  Forall (fun j => (j < length l)%nat) p -> length (reorder l p) = length p.
Proof.
  induction 1 as [|j p Hj Hp IH]; [reflexivity|].
  unfold reorder in *. cbn [omap list_omap].
  destruct (lookup_lt_is_Some_2 l j Hj) as [x ->]. cbn. now rewrite IH.
Qed.


Lemma reorder_map {A B} (f : A -> B) (l : list A) p :
  reorder (map f l) p = map f (reorder l p).
Proof.
  induction p as [|i p IH]; [reflexivity|].
  unfold reorder in *. cbn [omap list_omap]. rewrite lookup_map.
  destruct (l !! i); cbn; now rewrite IH.
Qed.


Lemma permutation_in_range n p :
  p ≡ₚ seq 0 n -> Forall (fun j => (j < n)%nat) p.
Proof.
  intros Hp. rewrite Hp. apply Forall_seq. intros j Hj. lia.
Qed.




(** *** Taking rows *)

Lemma pandas_scalars_take c p :
  Pandas.scalars (Pandas.take_series c p) = reorder (Pandas.scalars c) p.
Proof. destruct c; cbn; now rewrite reorder_map. Qed.

Lemma polars_pvalues_take c p :
  Polars.pvalues (Polars.take_series c p) = reorder (Polars.pvalues c) p.
Proof. destruct c; cbn; now rewrite reorder_map. Qed.





Lemma pandas_labels_take df p :
  map Pandas.label (Pandas.take df p) = map Pandas.label df.
Proof. unfold Pandas.take. rewrite map_map. reflexivity. Qed.

Lemma polars_names_take df p :
  map Polars.name (Polars.take df p) = map Polars.name df.
Proof. unfold Polars.take. rewrite map_map. reflexivity. Qed.






(** * Further properties *)

(** ** Numerals: what the display writes, [float] reads *)

Lemma read_digits_stop rest acc n : stops rest -> read_digits rest acc n = (acc, n, rest).
Proof. destruct rest as [|c t]; cbn; [reflexivity|]. now intros ->. Qed.

Lemma read_digits_uint_pos u : forall rest acc n,
  stops rest ->
  read_digits (DecimalString.NilEmpty.string_of_uint u ++ rest) (Zpos acc) n
  = (Zpos (Pos.of_uint_acc u acc), n + Z.of_nat (Decimal.nb_digits u), rest).
Proof.
  induction u; intros rest acc n Hr;
    cbn [DecimalString.NilEmpty.string_of_uint Decimal.nb_digits Pos.of_uint_acc].
  1: { cbn. rewrite read_digits_stop by assumption. f_equal. f_equal. lia. }
  all: change (String ?c ?s ++ ?rest) with (String c (s ++ rest));
    cbn [read_digits];
    match goal with |- context [is_digit ?c] => change (is_digit c) with true end;
    cbv iota;
    match goal with
    | |- read_digits _ ?a _ = (Z.pos (Pos.of_uint_acc _ ?p), _, _) =>
        replace a with (Z.pos p) by (unfold digit_val; cbn; lia)
    end;
    rewrite IHu by assumption; f_equal; f_equal; lia.
Qed.

Lemma read_digits_uint u : forall rest n,
  stops rest ->
  read_digits (DecimalString.NilEmpty.string_of_uint u ++ rest) 0 n
  = (Z.of_N (Pos.of_uint u), n + Z.of_nat (Decimal.nb_digits u), rest).
Proof.
  induction u; intros rest n Hr;
    cbn [DecimalString.NilEmpty.string_of_uint Decimal.nb_digits Pos.of_uint].
  1: { cbn. rewrite read_digits_stop by assumption. f_equal. f_equal. lia. }
  1: { change (String ?c ?s ++ rest) with (String c (s ++ rest)). cbn [read_digits].
       change (is_digit "0") with true. cbv iota.
       change (10 * 0 + digit_val "0") with 0. rewrite IHu by assumption.
       f_equal. f_equal. lia. }
  all: change (String ?c ?s ++ ?rest) with (String c (s ++ rest));
    cbn [read_digits];
    match goal with |- context [is_digit ?c] => change (is_digit c) with true end;
    cbv iota;
    match goal with
    | |- read_digits _ ?a _ = (Z.of_N (N.pos (Pos.of_uint_acc _ ?p)), _, _) =>
        change a with (Z.pos p)
    end;
    rewrite read_digits_uint_pos by assumption; cbn [Z.of_N]; f_equal; f_equal; lia.
Qed.

Lemma read_digits_digits n rest k :
  0 <= n -> stops rest ->
  exists len, 0 < len /\ read_digits (digits n ++ rest) 0 k = (n, k + len, rest).
Proof.
  intros Hn Hr. unfold digits. rewrite read_digits_uint by assumption.
  change (Pos.of_uint (N.to_uint (Z.to_N n))) with (N.of_uint (N.to_uint (Z.to_N n))).
  rewrite DecimalN.Unsigned.of_to, Z2N.id by assumption.
  exists (Z.of_nat (Decimal.nb_digits (N.to_uint (Z.to_N n)))). split; [|reflexivity].
  destruct (N.to_uint (Z.to_N n)) eqn:E; cbn; try lia.
  exfalso. pose proof (DecimalN.Unsigned.of_to (Z.to_N n)) as H. rewrite E in H.
  destruct (Z.to_N n) eqn:E2; [discriminate E|]. discriminate H.
Qed.

Lemma all_digits_uint u : all_digits (DecimalString.NilEmpty.string_of_uint u) = true.
Proof. induction u; cbn; auto. Qed.

Lemma all_digits_digits n : all_digits (digits n) = true.
Proof. apply all_digits_uint. Qed.

Lemma digit_neq c d : is_digit c = true -> is_digit d = false -> Ascii.eqb d c = false.
Proof.
  intros Hc Hd. destruct (Ascii.eqb_spec d c) as [->|]; [congruence | reflexivity].
Qed.

Lemma remove_char_rev_app c s1 : forall s2,
  remove_char c (String.rev_app s1 s2)
  = String.rev_app (remove_char c s1) (remove_char c s2).
Proof.
  induction s1 as [|a s1 IH]; intros s2; [reflexivity|].
  cbn [String.rev_app remove_char]. rewrite IH. cbn [remove_char].
  destruct (Ascii.eqb c a); reflexivity.
Qed.

Lemma all_digits_rev_app s1 : forall s2,
  all_digits (String.rev_app s1 s2) = all_digits s1 && all_digits s2.
Proof.
  induction s1 as [|a s1 IH]; intros s2; [reflexivity|].
  cbn [String.rev_app all_digits]. rewrite IH. cbn [all_digits].
  destruct (is_digit a), (all_digits s1); reflexivity.
Qed.

Lemma rev_app_rev_app s1 : forall s2 s3,
  String.rev_app (String.rev_app s1 s2) s3 = String.rev_app s2 (s1 ++ s3).
Proof.
  induction s1 as [|a s1 IH]; intros s2 s3; [reflexivity|].
  cbn [String.rev_app]. rewrite IH. reflexivity.
Qed.

Lemma rev_rev s : String.rev (String.rev s) = s.
Proof.
  unfold String.rev. rewrite rev_app_rev_app. cbn [String.rev_app].
  induction s as [|a s IH]; [reflexivity|].
  change (String a s ++ "") with (String a (s ++ "")). now rewrite IH.
Qed.

Lemma remove_comma_digits s : all_digits s = true -> remove_char "," s = s.
Proof.
  induction s as [|a s IH]; [reflexivity|]. cbn [all_digits remove_char].
  intros [Ha Hs]%andb_prop. rewrite (digit_neq a ","), IH by auto. reflexivity.
Qed.

Lemma group_rev_cons a b s k :
  group_rev (String a (String b s)) k
  = match k with
    | 2%nat => String a (String "," (group_rev (String b s) 0))
    | _ => String a (group_rev (String b s) (S k))
    end.
Proof. reflexivity. Qed.

Lemma remove_comma_group_rev s : forall k,
  all_digits s = true -> remove_char "," (group_rev s k) = s.
Proof.
  induction s as [|a s IH]; intros k; [reflexivity|].
  cbn [all_digits]. intros [Ha Hs]%andb_prop.
  assert (Hc : Ascii.eqb "," a = false) by now apply digit_neq.
  destruct s as [|b s]; [cbn [group_rev remove_char]; now rewrite Hc|].
  rewrite group_rev_cons.
  destruct k as [|[|[|k]]]; cbn [remove_char]; rewrite Hc;
    try (change (Ascii.eqb "," ",") with true; cbv iota); now rewrite IH.
Qed.

Lemma remove_comma_group3 s : all_digits s = true -> remove_char "," (group3 s) = s.
Proof.
  intros Hs. unfold group3, String.rev. rewrite remove_char_rev_app.
  rewrite remove_comma_group_rev.
  - apply rev_rev.
  - now rewrite all_digits_rev_app, Hs.
Qed.

(** The commas of the display are what the filter removes. *)
Lemma remove_comma_format_int z :
  remove_char "," (format_int z) = (if z <? 0 then "-" else "") ++ digits (Z.abs z).
Proof.
  unfold format_int. destruct (z <? 0).
  - change ("-" ++ ?x) with (String "-" x). cbn [remove_char].
    change (Ascii.eqb "," "-") with false. cbv iota.
    now rewrite remove_comma_group3 by apply all_digits_digits.
  - change ("" ++ ?x) with x.
    now rewrite remove_comma_group3 by apply all_digits_digits.
Qed.

Lemma plain_facts c :
  plain c = true ->
  is_space c = false /\ lower_ascii c = c /\ Ascii.eqb c "_" = false /\
  Ascii.eqb c "i" = false /\ Ascii.eqb c "n" = false.
Proof. by_bits c; try discriminate; intros _; repeat split. Qed.

Lemma digit_plain c : is_digit c = true -> plain c = true.
Proof. unfold plain. now intros ->. Qed.

Lemma all_digits_plain s : all_digits s = true -> all_plain s = true.
Proof.
  induction s as [|c s IH]; [reflexivity|]. cbn [all_digits all_plain].
  intros [Hc Hs]%andb_prop. now rewrite (digit_plain c Hc), IH.
Qed.

Lemma all_plain_app s1 s2 :
  all_plain (s1 ++ s2) = all_plain s1 && all_plain s2.
Proof.
  induction s1 as [|c s1 IH]; [reflexivity|].
  change (String c s1 ++ s2) with (String c (s1 ++ s2)). cbn [all_plain].
  rewrite IH. now rewrite andb_assoc.
Qed.

Lemma read_sign_digit c t :
  is_digit c = true -> read_sign (String c t) = (false, String c t).
Proof. by_bits c; try discriminate; reflexivity. Qed.

Lemma after_not_underscore {A} (p : ascii) (x y : A) :
  p <> "_"%char -> match p with "_"%char => x | _ => y end = y.
Proof. by_bits p; try reflexivity. congruence. Qed.

Lemma strip_underscores_plain s : forall p,
  all_plain s = true -> p <> "_"%char ->
  strip_underscores (Some p) s = Some s.
Proof.
  induction s as [|c s IH]; intros p Hs Hp.
  - cbn. now rewrite after_not_underscore.
  - cbn [all_plain] in Hs. apply andb_prop in Hs as [Hc Hs].
    destruct (plain_facts c Hc) as (_ & _ & Hu & _).
    cbn [strip_underscores]. rewrite Hu, after_not_underscore by assumption.
    rewrite IH; [reflexivity | assumption |].
    intros ->. discriminate.
Qed.

Lemma lstrip_rev_app d : forall acc,
  all_plain d = true -> d <> "" -> lstrip (String.rev_app d acc) = String.rev_app d acc.
Proof.
  induction d as [|c d IH]; intros acc Hd Hne; [congruence|].
  cbn [all_plain] in Hd. apply andb_prop in Hd as [Hc Hd].
  cbn [String.rev_app]. destruct d as [|c' d'].
  - cbn [String.rev_app lstrip]. now destruct (plain_facts c Hc) as (-> & _).
  - apply IH; [assumption | discriminate].
Qed.

Lemma strip_underscores_first c s :
  strip_underscores None (String c s)
  = if Ascii.eqb c "_" then None
    else option_map (String c) (strip_underscores (Some c) s).
Proof. reflexivity. Qed.

(** A number in fixed notation, with an optional minus sign, goes to the
    decimal grammar as it is: nothing is stripped and no special name is
    recognised. *)
Lemma parse_float_plain (neg : bool) c d :
  is_digit c = true -> all_plain d = true ->
  parse_float ((if neg then "-" else "") ++ String c d)
  = parse_decimal neg (String c d).
Proof.
  intros Hdig Hd. pose proof (digit_plain c Hdig) as Hc.
  destruct (plain_facts c Hc) as (Hsp & Hlow & Hu & Hi & Hnn).
  assert (Hall : all_plain (String c d) = true) by (cbn; now rewrite Hc, Hd).
  unfold parse_float. destruct neg.
  - change ("-" ++ String c d) with (String "-" (String c d)).
    assert (Hs : strip_underscores None (String "-" (String c d))
                 = Some (String "-" (String c d))).
    { rewrite strip_underscores_first. change (Ascii.eqb "-" "_") with false. cbv iota.
      rewrite strip_underscores_plain by (assumption || congruence). reflexivity. }
    rewrite Hs.
    assert (Hst : strip (String "-" (String c d)) = String "-" (String c d)).
    { unfold strip, rstrip. cbn [lstrip]. change (is_space "-") with false. cbv iota.
      unfold String.rev at 2. cbn [String.rev_app].
      change (String.rev_app d (String c "-")) with (String.rev_app (String c d) "-").
      rewrite lstrip_rev_app by (assumption || congruence).
      change (String.rev_app (String c d) "-") with (String.rev (String "-" (String c d))).
      apply rev_rev. }
    rewrite Hst. cbn [read_sign]. cbn [lower]. rewrite Hlow.
    cbn [String.eqb]. rewrite Hi, Hnn. cbn [andb orb]. cbv iota.
    reflexivity.
  - change ("" ++ String c d) with (String c d).
    assert (Hs : strip_underscores None (String c d) = Some (String c d)).
    { rewrite strip_underscores_first, Hu.
      assert (Hds : strip_underscores (Some c) d = Some d).
      { apply strip_underscores_plain; [assumption|]. intros ->. discriminate. }
      now rewrite Hds. }
    rewrite Hs.
    assert (Hst : strip (String c d) = String c d).
    { unfold strip, rstrip. cbn [lstrip]. rewrite Hsp.
      unfold String.rev at 2.
      rewrite lstrip_rev_app by (assumption || congruence).
      apply (rev_rev (String c d)). }
    rewrite Hst, read_sign_digit by assumption. cbn [lower]. rewrite Hlow.
    cbn [String.eqb]. rewrite Hi, Hnn. cbn [andb orb]. cbv iota.
    reflexivity.
Qed.

Lemma append_empty s : s ++ "" = s.
Proof.
  induction s as [|a s IH]; [reflexivity|].
  change (String a s ++ "") with (String a (s ++ "")). now rewrite IH.
Qed.

(** The numeral of a number starts with a digit. *)
Lemma digits_first n :
  0 <= n -> exists c d, digits n = String c d /\ is_digit c = true /\ all_digits d = true.
Proof.
  intros Hn. pose proof (all_digits_digits n) as Hd.
  destruct (read_digits_digits n "" 0 Hn I) as (len & Hlen & Hread).
  rewrite append_empty in Hread.
  destruct (digits n) as [|c d] eqn:Ed.
  { cbn in Hread. inversion Hread. lia. }
  cbn [all_digits] in Hd. apply andb_prop in Hd as [Hc Hd'].
  exists c, d. auto.
Qed.

(** A number written with digits only, and an optional minus sign, parses
    to the float nearest to it. *)
Lemma parse_float_digits (neg : bool) n :
  0 <= n -> (neg = true -> 0 < n) ->
  parse_float ((if neg then "-" else "") ++ digits n)
  = Some (float_of_Z (cond_Zopp neg n)).
Proof.
  intros Hn Hneg.
  destruct (read_digits_digits n "" 0 Hn I) as (len & Hlen & Hread).
  rewrite append_empty in Hread.
  destruct (digits_first n Hn) as (c & d & Ed & Hc & Hd).
  rewrite Ed in *.
  rewrite parse_float_plain by auto using all_digits_plain.
  unfold parse_decimal. rewrite Hread. cbv iota beta.
  destruct (Z.eqb_spec (0 + len + 0) 0); [lia|].
  f_equal. unfold float_of_decimal, float_of_Z. destruct n as [|p|p]; [|  |lia].
  - destruct neg; [specialize (Hneg eq_refl); lia | reflexivity].
  - cbn [Z.leb Z.compare Z.opp]. rewrite Z.pow_0_r, Z.mul_1_r.
    destruct neg; reflexivity.
Qed.

(** The range filter reads back the integer a table model displays. *)
Lemma parse_float_format_int z :
  parse_float (remove_char "," (format_int z)) = Some (float_of_Z z).
Proof.
  rewrite remove_comma_format_int.
  destruct (Z.ltb_spec z 0).
  - rewrite (parse_float_digits true (Z.abs z)) by lia. cbn [cond_Zopp]. f_equal. f_equal. lia.
  - rewrite (parse_float_digits false (Z.abs z)) by (lia || congruence).
    cbn [cond_Zopp]. f_equal. f_equal. lia.
Qed.

(** What [apply_filter] computes for a range descriptor with float bounds *)
Lemma apply_range_filter (value : string) (a b : float) :
  apply_filter (Some value) (range_filter a b)
  = Ret match parse_float (remove_char "," value) with
        | Some x => float_le a x && float_le x b
        | None => false
        end.
Proof.
  rewrite (apply_filter_range (Some value) (range_filter a b) eq_refl).
  change (get_default (range_filter a b) "min" (VFloat neg_inf)) with (VFloat a).
  change (get_default (range_filter a b) "max" (VFloat inf)) with (VFloat b).
  destruct (parse_float (remove_char "," value)) as [x|] eqn:Hp.
  - now rewrite (range_body_parsed (Some value) x (VFloat a) (VFloat b)
                   (inr a) (inr b) Hp eq_refl eq_refl).
  - unfold range_body, float_of_str. cbn [str_of]. now rewrite Hp.
Qed.

(** ** Cells and what they display *)

Lemma pandas_data_int (m : Pandas.PandasTableModel) r c z :
  Pandas.iloc (Pandas._data m) r c = Ret (Pandas.NpInt z) ->
  Pandas.data m (Index r c) = Ret (Some (format_int z)).
Proof. intros H. unfold Pandas.data. now rewrite H. Qed.

Lemma polars_data_cell (m : Polars.PolarsTableModel) r c dtype v :
  (r < Polars.rowCount m)%nat -> (c < Polars.columnCount m)%nat ->
  Polars.cell (Polars._data m) r c = Ret (dtype, v) ->
  Polars.data m (Index r c)
  = Ret (Some match v with
              | None => ""
              | Some (Polars.PInt z) => format_int z
              | Some (Polars.PFloat f) => format_float f
              | Some (Polars.PDate d) =>
                  strftime (mkDatetime (d_year d) (d_month d) (d_day d) 0 0 0) "%Y-%m-%d"
              | Some (Polars.PDatetime dt) => strftime dt "%Y-%m-%d %H:%M:%S"
              | Some (Polars.PBool b) => if b then "True" else "False"
              | Some (Polars.PStr t) => t
              end).
Proof.
  intros Hr Hc H. unfold Polars.data.
  apply Nat.ltb_lt in Hr, Hc. rewrite Hr, Hc, H. cbn [andb].
  destruct v as [v|]; reflexivity.
Qed.

(** X1: an integer cell passes a range filter exactly when the float
    nearest to its value lies between the bounds: the commas of the display
    are removed and the digits read back give the integer again, in both
    models. *)
Theorem integer_cell_range_filter :
  (forall (m : Pandas.PandasTableModel) (r c : nat) (z : Z) (a b : float),
      Pandas.iloc (Pandas._data m) r c = Ret (Pandas.NpInt z) ->
      exists shown,
        data m (Index r c) = Ret (Some shown) /\
        apply_filter (Some shown) (range_filter a b)
        = Ret (float_le a (float_of_Z z) && float_le (float_of_Z z) b))
  /\ (forall (m : Polars.PolarsTableModel) (r c : nat) dtype (z : Z) (a b : float),
         (r < rowCount m)%nat -> (c < columnCount m)%nat ->
         Polars.cell (Polars._data m) r c = Ret (dtype, Some (Polars.PInt z)) ->
         exists shown,
           data m (Index r c) = Ret (Some shown) /\
           apply_filter (Some shown) (range_filter a b)
           = Ret (float_le a (float_of_Z z) && float_le (float_of_Z z) b)).
Proof.
  split.
  - intros m r c z a b H. exists (format_int z). split.
    + now apply pandas_data_int.
    + now rewrite apply_range_filter, parse_float_format_int.
  - intros m r c dtype z a b Hr Hc H. exists (format_int z). split.
    + exact (polars_data_cell m r c dtype _ Hr Hc H).
    + now rewrite apply_range_filter, parse_float_format_int.
Qed.

Lemma integer_cell_range_filter_witness :
  exists shown,
    data example_polars (Index 4 0) = Ret (Some shown) /\
    apply_filter (Some shown) (range_filter (float_of_Z 5) (float_of_Z 10))
    = Ret (float_le (float_of_Z 5) (float_of_Z 12) && float_le (float_of_Z 12) (float_of_Z 10)).
Proof.
  apply (proj2 integer_cell_range_filter example_polars 4%nat 0%nat
           (Polars.SInt true Pandas.W64 [Some 3; Some 5; Some 7; Some 10; Some 12]) 12);
    vm_compute; reflexivity.
Defined.

(** ** Two-digit fields *)

Lemma digit_char_facts d :
  0 <= d <= 9 ->
  is_digit (digit_char d) = true /\ digit_val (digit_char d) = d.
Proof.
  intros Hd.
  assert (H : d = 0 \/ d = 1 \/ d = 2 \/ d = 3 \/ d = 4 \/ d = 5 \/ d = 6 \/
              d = 7 \/ d = 8 \/ d = 9) by lia.
  repeat destruct H as [->|H]; try subst d; split; reflexivity.
Qed.

Lemma two_digit_bounds r :
  0 <= r < 100 ->
  0 <= r / 10 <= 9 /\ 0 <= r mod 10 <= 9 /\ r = 10 * (r / 10) + r mod 10.
Proof.
  intros Hr. pose proof (Z.div_mod r 10 ltac:(lia)).
  pose proof (Z.mod_pos_bound r 10 ltac:(lia)). lia.
Qed.

Lemma pad2_two r :
  0 <= r < 100 ->
  pad2 r = String (digit_char (r / 10)) (String (digit_char (r mod 10)) "").
Proof.
  intros Hr.
  assert (H : forallb (fun r => String.eqb (pad2 r)
                                  (String (digit_char (r / 10))
                                     (String (digit_char (r mod 10)) "")))
                (map Z.of_nat (seq 0 100)) = true) by (vm_compute; reflexivity).
  rewrite List.forallb_forall in H. apply String.eqb_eq, H.
  apply in_map_iff. exists (Z.to_nat r). split; [lia|]. apply in_seq. lia.
Qed.

Lemma read_digits_pad2 r acc n rest :
  0 <= r < 100 -> stops rest ->
  read_digits (pad2 r ++ rest) acc n = (100 * acc + r, n + 2, rest).
Proof.
  intros Hr Hrest. rewrite pad2_two by assumption.
  destruct (two_digit_bounds r Hr) as (B1 & B0 & E).
  destruct (digit_char_facts (r / 10) B1) as [H1 V1].
  destruct (digit_char_facts (r mod 10) B0) as [H0 V0].
  change (String ?a (String ?b "") ++ rest) with (String a (String b rest)).
  cbn [read_digits]. rewrite H1, H0, V1, V0.
  rewrite read_digits_stop by assumption.
  f_equal. f_equal; lia.
Qed.

Lemma pad2_plain r : 0 <= r < 100 -> all_digits (pad2 r) = true.
Proof.
  intros Hr. rewrite pad2_two by assumption.
  destruct (two_digit_bounds r Hr) as (B1 & B0 & E).
  destruct (digit_char_facts (r / 10) B1) as [H1 _].
  destruct (digit_char_facts (r mod 10) B0) as [H0 _].
  cbn [all_digits]. now rewrite H1, H0.
Qed.

(** ** Float cells *)

Lemma remove_char_app c s1 s2 :
  remove_char c (s1 ++ s2) = remove_char c s1 ++ remove_char c s2.
Proof.
  induction s1 as [|a s1 IH]; [reflexivity|].
  change (String a s1 ++ s2) with (String a (s1 ++ s2)). cbn [remove_char].
  rewrite IH. destruct (Ascii.eqb c a); reflexivity.
Qed.

Lemma hundredths_nonneg m e : 0 <= hundredths m e.
Proof.
  unfold hundredths. destruct (0 <=? e) eqn:He.
  - apply Z.leb_le in He. pose proof (Z.pow_pos_nonneg 2 e). nia.
  - apply Z.leb_gt in He.
    assert (Hb : 0 < 2 ^ (- e)) by (apply Z.pow_pos_nonneg; lia).
    unfold round_half_even.
    pose proof (Z.div_pos (Z.pos m * 100) (2 ^ (- e)) ltac:(lia) Hb).
    destruct (_ ?= _); [destruct (Z.even _)| |]; lia.
Qed.

(** The fixed notation with two decimals reads back as the number of
    hundredths it was printed from. *)
Lemma parse_float_fixed2 (neg : bool) n :
  0 <= n ->
  parse_float (remove_char "," (fixed2 neg n)) = Some (float_of_decimal neg n (-2)).
Proof.
  intros Hn. unfold fixed2.
  assert (Hq : 0 <= n / 100) by (apply Z.div_pos; lia).
  assert (Hr : 0 <= n mod 100 < 100) by (apply Z.mod_pos_bound; lia).
  rewrite !remove_char_app.
  rewrite remove_comma_group3 by apply all_digits_digits.
  rewrite (remove_comma_digits (pad2 (n mod 100))) by now apply pad2_plain.
  replace (remove_char "," (if neg then "-" else "")) with (if neg then "-" else "")
    by now destruct neg.
  change (remove_char "," ".") with ".".
  destruct (digits_first (n / 100) Hq) as (c & d & Ed & Hc & Hd).
  destruct (read_digits_digits (n / 100) ("." ++ pad2 (n mod 100)) 0 Hq eq_refl)
    as (len & Hlen & Hread).
  rewrite Ed in *.
  change (String c d ++ ?x) with (String c (d ++ x)) in *.
  rewrite parse_float_plain; [|assumption|].
  2: { rewrite all_plain_app, (all_digits_plain d Hd).
       change ("." ++ ?x) with (String "." x). cbn [all_plain andb].
       change (plain ".") with true. cbn [andb].
       apply all_digits_plain. now apply pad2_plain. }
  unfold parse_decimal. rewrite Hread.
  change ("." ++ ?x) with (String "." x). cbv iota beta.
  rewrite <- (append_empty (pad2 (n mod 100))).
  rewrite read_digits_pad2 by (assumption || exact I).
  destruct (Z.eqb_spec (0 + len + (0 + 2)) 0); [lia|].
  pose proof (Z.div_mod n 100 ltac:(lia)) as E.
  rewrite <- E. reflexivity.
Qed.

(** What [float] reads in the string a float is displayed as *)
Lemma parse_float_format_float x :
  parse_float (remove_char "," (format_float x)) = Some (shown_float x).
Proof.
  destruct x as [s|s| |s m e].
  - apply (parse_float_fixed2 s 0). lia.
  - destruct s; reflexivity.
  - reflexivity.
  - apply parse_float_fixed2, hundredths_nonneg.
Qed.

(** X2: a float cell passes a range filter by the number it displays, its
    value rounded to two decimals, and not by the value it holds; so 0.004,
    displayed as 0.00, fails the lower bound 0.001.  A NaN cell of the
    pandas model displays nothing and fails every range filter. *)
Theorem float_cell_range_filter :
  (forall (m : Pandas.PandasTableModel) (r c : nat) (d : bool) (f a b : float),
      Pandas.iloc (Pandas._data m) r c = Ret (Pandas.NpFloat d f) ->
      exists shown,
        data m (Index r c) = Ret (Some shown) /\
        apply_filter (Some shown) (range_filter a b)
        = Ret (negb (is_nan f) &&
               (float_le a (shown_float f) && float_le (shown_float f) b)))
  /\ (forall (m : Polars.PolarsTableModel) (r c : nat) dtype (f a b : float),
         (r < rowCount m)%nat -> (c < columnCount m)%nat ->
         Polars.cell (Polars._data m) r c = Ret (dtype, Some (Polars.PFloat f)) ->
         exists shown,
           data m (Index r c) = Ret (Some shown) /\
           apply_filter (Some shown) (range_filter a b)
           = Ret (float_le a (shown_float f) && float_le (shown_float f) b))
  /\ (let x := float_of_decimal false 4 (-3) in
      let lo := float_of_decimal false 1 (-3) in
      float_le lo x && float_le x (float_of_Z 1) = true /\
      format_float x = "0.00" /\
      apply_filter (Some (format_float x)) (range_filter lo (float_of_Z 1)) = Ret false).
Proof.
  split; [|split].
  - intros m r c d f a b H. unfold data, Pandas.table_model, Pandas.data. rewrite H.
    cbn [mbind res_bind bind Pandas.isna].
    destruct (is_nan f) eqn:Hnan.
    + exists "". split; [reflexivity|]. now rewrite apply_range_filter.
    + exists (format_float f). split; [reflexivity|].
      now rewrite apply_range_filter, parse_float_format_float.
  - intros m r c dtype f a b Hr Hc H. exists (format_float f). split.
    + exact (polars_data_cell m r c dtype _ Hr Hc H).
    + now rewrite apply_range_filter, parse_float_format_float.
  - vm_compute. repeat split.
Qed.

Lemma float_cell_range_filter_witness :
  exists shown,
    data constant_pandas (Index 0 0) = Ret (Some shown) /\
    apply_filter (Some shown) (range_filter (float_of_Z 1) (float_of_Z 3))
    = Ret (negb (is_nan (float_of_Z 2)) &&
           (float_le (float_of_Z 1) (shown_float (float_of_Z 2)) &&
            float_le (shown_float (float_of_Z 2)) (float_of_Z 3))).
Proof.
  apply (proj1 float_cell_range_filter constant_pandas 0%nat 0%nat true (float_of_Z 2)).
  vm_compute; reflexivity.
Defined.

(** ** The text predicate *)




Lemma lower_app s1 s2 : lower (s1 ++ s2) = lower s1 ++ lower s2.
Proof.
  induction s1 as [|c s1 IH]; [reflexivity|].
  change (String c s1 ++ s2) with (String c (s1 ++ s2)). cbn [lower].
  now rewrite IH.
Qed.





(** ** The proxy over well-formed frames *)

Section ProxyTotal.

Context {M : Type} `{TableModel M}.

Variable m : M.

(** The model answers for every header inside the table and for every
    index that [index] makes. *)
Hypothesis headers_answer :
  forall i, (i < columnCount m)%nat -> exists h, headerData m i = Ret h.
Hypothesis cells_answer :
  forall row column, exists v, data m (index m row column) = Ret v.



End ProxyTotal.

Lemma pandas_len_rows n (df : Pandas.DataFrame) c :
  pandas_rows n df -> (c < length df)%nat -> Pandas.len df = n.
Proof.
  intros Hn Hc. destruct df as [|c0 df]; [cbn in Hc; lia|].
  apply Forall_cons in Hn as [H0 _]. exact H0.
Qed.

Lemma polars_height_rows n (df : Polars.DataFrame) c :
  polars_rows n df -> (c < length df)%nat -> Polars.height df = n.
Proof.
  intros Hn Hc. destruct df as [|c0 df]; [cbn in Hc; lia|].
  apply Forall_cons in Hn as [H0 _]. exact H0.
Qed.


Lemma polars_cell_in_range n (df : Polars.DataFrame) r c :
  polars_rows n df -> (r < n)%nat -> (c < length df)%nat ->
  exists dtype v, Polars.cell df r c = Ret (dtype, v).
Proof.
  intros Hn Hr Hc. unfold Polars.cell.
  destruct (lookup_lt_is_Some_2 df c Hc) as [col Hcol]. rewrite Hcol.
  pose proof (proj1 (Forall_lookup _ _) Hn c col Hcol) as Hlen. cbn in Hlen.
  destruct (lookup_lt_is_Some_2 (Polars.pvalues (Polars.values col)) r) as [v ->];
    [lia | eauto].
Qed.



Lemma polars_data_answers n (m : Polars.PolarsTableModel) idx :
  polars_rows n (Polars._data m) ->
  exists v, data m idx = Ret v.
Proof.
  intros Hn. destruct idx as [|r c]; [now exists None|].
  change (data m (Index r c)) with (Polars.data m (Index r c)). unfold Polars.data.
  destruct (Nat.ltb_spec r (Polars.rowCount m)) as [Hr|]; [|now exists None].
  destruct (Nat.ltb_spec c (Polars.columnCount m)) as [Hc|]; [|now exists None].
  cbn [andb]. unfold Polars.rowCount in Hr. unfold Polars.columnCount, Polars.width_of in Hc.
  rewrite (polars_height_rows n _ c Hn Hc) in Hr.
  destruct (polars_cell_in_range n _ r c Hn Hr Hc) as (dtype & v & ->).
  cbn [mbind res_bind bind]. destruct v; eauto.
Qed.





(** ** Cells outside the frame *)

Lemma pandas_iloc_outside n (df : Pandas.DataFrame) r c :
  pandas_rows n df -> (n <= r)%nat \/ (length df <= c)%nat ->
  Pandas.iloc df r c = Raise IndexError.
Proof.
  intros Hn Hout. unfold Pandas.iloc.
  destruct (df !! c) as [col|] eqn:Hcol; [|reflexivity].
  pose proof (proj1 (Forall_lookup _ _) Hn c col Hcol) as Hlen. cbn in Hlen.
  apply lookup_lt_Some in Hcol.
  rewrite (proj2 (lookup_ge_None _ _)); [reflexivity | lia].
Qed.

(** X5: asked for the display of a valid index that lies outside the
    frame, the polars model answers [None] and the pandas model raises
    [IndexError]; the polars model never raises for the display role over a
    frame whose columns have one length. *)
Theorem display_outside_frame :
  (forall (n : nat) (m : Polars.PolarsTableModel) (idx : QModelIndex),
      polars_rows n (Polars._data m) ->
      exists v, Polars.data m idx = Ret v)
  /\ (forall (m : Polars.PolarsTableModel) (r c : nat),
         (rowCount m <= r)%nat \/ (columnCount m <= c)%nat ->
         Polars.data m (Index r c) = Ret None)
  /\ (forall (n : nat) (m : Pandas.PandasTableModel) (r c : nat),
         pandas_rows n (Pandas._data m) ->
         (n <= r)%nat \/ (columnCount m <= c)%nat ->
         Pandas.data m (Index r c) = Raise IndexError).
Proof.
  split; [|split].
  - intros n m idx Hn. exact (polars_data_answers n m idx Hn).
  - intros m r c Hout. unfold Polars.data.
    change (rowCount m) with (Polars.rowCount m) in Hout.
    change (columnCount m) with (Polars.columnCount m) in Hout.
    destruct (Nat.ltb_spec r (Polars.rowCount m));
      destruct (Nat.ltb_spec c (Polars.columnCount m)); try reflexivity. lia.
  - intros n m r c Hn Hout. unfold Pandas.data.
    now rewrite (pandas_iloc_outside n _ r c Hn Hout).
Qed.

Lemma display_outside_frame_witness :
  Polars.data example_polars (Index 5 0) = Ret None /\
  Pandas.data example_pandas (Index 5 0) = Raise IndexError.
Proof.
  split.
  - apply (proj1 (proj2 display_outside_frame) example_polars 5%nat 0%nat).
    vm_compute. lia.
  - apply (proj2 (proj2 display_outside_frame) 5%nat example_pandas 5%nat 0%nat).
    + unfold pandas_rows. apply (bool_decide_unpack _). vm_compute. reflexivity.
    + vm_compute. lia.
Defined.

(** ** Alignment *)




(** ** Type tags and the widgets of the filter dialog *)





(** ** The filter dialog *)

Lemma dict_set_In {V} k (v : V) d k0 v0 :
  In (k0, v0) (dict_set k v d) -> (k0 = k /\ v0 = v) \/ In (k0, v0) d.
Proof.
  induction d as [|[k' v'] d IH]; cbn [dict_set].
  - intros [[= <- <-]|[]]. now left.
  - destruct (String.eqb_spec k' k) as [->|Hne].
    + intros [[= <- <-]|Hin]; [now left | right; now right].
    + intros [[= <- <-]|Hin]; [right; now left|].
      destruct (IH Hin) as [?|?]; [now left | right; now right].
Qed.

Lemma dict_set_keys {V} k (v : V) d k0 :
  In k0 (map fst (dict_set k v d)) <-> k0 = k \/ In k0 (map fst d).
Proof.
  induction d as [|[k' v'] d IH]; cbn [dict_set map fst In].
  - intuition.
  - destruct (String.eqb_spec k' k) as [->|Hne]; cbn [map fst In].
    + intuition.
    + rewrite IH. intuition.
Qed.

(** What [get_filters] returns comes from the widgets of a column and is
    not empty. *)
Lemma get_filters_In cw : forall acc k fd,
  In (k, fd)
     (fold_left
        (fun filters '(col_name, w) =>
           let filter_data := FilterDialog.filter_data_of w in
           if bool_decide (size filter_data = 0%nat) then filters
           else dict_set col_name filter_data filters) cw acc) ->
  In (k, fd) acc \/
  exists w, In (k, w) cw /\ fd = FilterDialog.filter_data_of w /\ size fd <> 0%nat.
Proof.
  induction cw as [|[name w] cw IH]; intros acc k fd; cbn [fold_left]; [now left|].
  intros Hin. apply IH in Hin as [Hin|(w' & Hw' & Hfd)].
  - destruct (bool_decide_reflect (size (FilterDialog.filter_data_of w) = 0%nat))
      as [Hz|Hnz]; [now left|].
    apply dict_set_In in Hin as [[-> ->]|Hin]; [|now left].
    right. exists w. split; [now left | auto].
  - right. exists w'. split; [now right | exact Hfd].
Qed.

Lemma filter_data_of_forms w :
  size (FilterDialog.filter_data_of w) <> 0%nat ->
  (exists a b, FilterDialog.filter_data_of w = range_filter a b) \/
  (exists t, FilterDialog.filter_data_of w = text_filter t /\ t <> "") \/
  (exists a b, FilterDialog.filter_data_of w = date_filter a b) \/
  (exists b, FilterDialog.filter_data_of w = bool_filter b).
Proof.
  destruct w as [lo hi dtype|t|a b|[b|]]; cbn [FilterDialog.filter_data_of].
  - destruct (_ || _); [intros _; left; now exists lo, hi|].
    intros Hs. now rewrite map_size_empty in Hs.
  - destruct (String.eqb_spec (strip t) "") as [He|Hne]; cbn [negb].
    + intros Hs. now rewrite map_size_empty in Hs.
    + intros _. right. left. now exists (strip t).
  - intros _. right. right. left. now exists a, b.
  - intros _. right. right. right. now exists b.
  - intros Hs. now rewrite map_size_empty in Hs.
Qed.

Lemma filter_body_date value a b :
  exists r, filter_body value (date_filter a b) = Ret (Some r).
Proof.
  unfold filter_body.
  change (get (date_filter a b) "type") with (VStr "date").
  change (eq_str (VStr "date") "range") with false.
  change (eq_str (VStr "date") "text") with false.
  change (eq_str (VStr "date") "date") with true. cbv iota.
  change (get (date_filter a b) "from") with (VDate a).
  change (get (date_filter a b) "to") with (VDate b).
  destruct value as [v|]; [|now exists false].
  unfold date_body. destruct (first_format_total v date_formats) as [[dt|] ->];
    cbn [mbind res_bind bind]; [|now exists false].
  unfold chained_le, py_le. cbn [as_number mbind res_bind bind].
  destruct (date_le a (date_of dt)); cbn; eauto.
Qed.

Lemma filter_body_range value a b :
  exists r, filter_body value (range_filter a b) = Ret (Some r).
Proof.
  unfold filter_body.
  change (get (range_filter a b) "type") with (VStr "range").
  change (eq_str (VStr "range") "range") with true. cbv iota.
  change (get_default (range_filter a b) "min" (VFloat neg_inf)) with (VFloat a).
  change (get_default (range_filter a b) "max" (VFloat inf)) with (VFloat b).
  unfold range_body, float_of_str.
  destruct (parse_float _) as [x|]; cbn [mbind res_bind bind]; [|now exists false].
  unfold chained_le, py_le. cbn [as_number mbind res_bind bind number_le].
  destruct (float_le a x); cbn; eauto.
Qed.

Lemma filter_body_text value t :
  exists r, filter_body value (text_filter t) = Ret (Some r).
Proof.
  unfold filter_body.
  change (get (text_filter t) "type") with (VStr "text").
  change (eq_str (VStr "text") "range") with false.
  change (eq_str (VStr "text") "text") with true. cbv iota.
  unfold text_body.
  change (get_default (text_filter t) "value" (VStr "")) with (VStr t).
  cbn [mbind res_bind bind]. destruct (String.eqb _ _); eauto.
Qed.

Lemma filter_body_bool value b :
  exists r, filter_body value (bool_filter b) = Ret (Some r).
Proof.
  unfold filter_body.
  change (get (bool_filter b) "type") with (VStr "bool").
  change (eq_str (VStr "bool") "range") with false.
  change (eq_str (VStr "bool") "text") with false.
  change (eq_str (VStr "bool") "date") with false.
  change (eq_str (VStr "bool") "bool") with true. cbv iota.
  unfold bool_body. change (get (bool_filter b) "value") with (VBool b).
  destruct b; eauto.
Qed.

(** X9: whatever the widgets of the dialog hold, each descriptor
    [get_filters] returns is a complete descriptor of one of the four
    kinds, with float bounds, a search text that is not empty, dates, or a
    boolean; [apply_filter] decides it in the branch of its kind for every
    cell, without an exception and without reaching the final
    [return True]. *)
Theorem dialog_filters_are_decided :
  forall (column_widgets : list (string * FilterDialog.widgets)) (name : string)
         (fd : dict),
    In (name, fd) (FilterDialog.get_filters column_widgets) ->
    ((exists a b, fd = range_filter a b) \/
     (exists t, fd = text_filter t /\ t <> "") \/
     (exists a b, fd = date_filter a b) \/
     (exists b, fd = bool_filter b))
    /\ forall value, exists r,
         filter_body value fd = Ret (Some r) /\ apply_filter value fd = Ret r.
Proof.
  intros cw name fd Hin. unfold FilterDialog.get_filters in Hin.
  apply get_filters_In in Hin as [[]|(w & _ & -> & Hs)].
  pose proof (filter_data_of_forms w Hs) as Hform. split; [exact Hform|].
  intros value.
  assert (Hb : exists r, filter_body value (FilterDialog.filter_data_of w) = Ret (Some r)).
  { destruct Hform as [(a & b & ->)|[(t & -> & _)|[(a & b & ->)|(b & ->)]]].
    - apply filter_body_range.
    - apply filter_body_text.
    - apply filter_body_date.
    - apply filter_body_bool. }
  destruct Hb as [r Hr]. exists r. split; [exact Hr|].
  unfold apply_filter. now rewrite Hr.
Qed.

Lemma dialog_filters_are_decided_witness :
  exists r,
    filter_body None (date_filter (mkDate 2023 2 28) (mkDate 2024 2 29)) = Ret (Some r) /\
    apply_filter None (date_filter (mkDate 2023 2 28) (mkDate 2024 2 29)) = Ret r.
Proof.
  apply (proj2 (dialog_filters_are_decided
                  [("d", FilterDialog.DateWidgets (mkDate 2023 2 28) (mkDate 2024 2 29))]
                  "d" (date_filter (mkDate 2023 2 28) (mkDate 2024 2 29))
                  ltac:(vm_compute; left; reflexivity))).
Defined.

Lemma get_filters_keys cw name fd :
  In (name, fd) (FilterDialog.get_filters cw) -> In name (map fst cw).
Proof.
  intros Hin. unfold FilterDialog.get_filters in Hin.
  apply get_filters_In in Hin as [[]|(w & Hw & _)].
  apply in_map_iff. now exists (name, w).
Qed.

(** The widgets a fresh dialog holds make a descriptor only when they are
    date edits. *)
Lemma fresh_widgets_filter dtype today w :
  FilterDialog.widgets_for dtype today = Some w ->
  size (FilterDialog.filter_data_of w) <> 0%nat ->
  dtype = "datetime64[ns]" /\
  FilterDialog.filter_data_of w = date_filter (FilterDialog.addYears today (-1)) today.
Proof.
  unfold FilterDialog.widgets_for.
  destruct (str_in dtype _).
  { intros [= <-] Hs. exfalso. apply Hs. reflexivity. }
  destruct (String.eqb dtype "object").
  { intros [= <-] Hs. exfalso. apply Hs. reflexivity. }
  destruct (String.eqb_spec dtype "datetime64[ns]") as [->|_].
  { intros [= <-] _. split; reflexivity. }
  destruct (String.eqb dtype "bool"); [|discriminate].
  intros [= <-] Hs. exfalso. apply Hs. reflexivity.
Qed.

Section DialogFacts.

Context {M : Type} `{TypedTableModel M}.

(** When [init_ui] returns, every header was read, and every entry of
    [column_widgets] was made for a column with that header. *)
Lemma init_columns_In (m : M) today n : forall col acc r,
  FilterDialog.init_columns m today col n acc = Ret r ->
  (forall j, (col <= j < col + n)%nat -> exists h, headerData m j = Ret h) /\
  forall k w, In (k, w) r ->
    In (k, w) acc \/
    exists j, (col <= j < col + n)%nat /\ headerData m j = Ret k /\
              FilterDialog.widgets_for (get_column_dtype m j) today = Some w.
Proof.
  induction n as [|n IH]; intros col acc r; cbn [FilterDialog.init_columns].
  - intros [= <-]. split; [intros j ?; lia | intros k w ?; now left].
  - destruct (headerData m col) as [h|e] eqn:Eh; cbn [mbind res_bind bind];
      [|discriminate].
    intros Hr. apply IH in Hr as [Hheads Hin]. split.
    + intros j Hj. destruct (decide (j = col)) as [->|]; [eauto|].
      apply Hheads. lia.
    + intros k w Hkw. destruct (Hin k w Hkw) as [Hacc|(j & Hj & Hh & Hw)].
      * destruct (FilterDialog.widgets_for (get_column_dtype m col) today)
          as [w0|] eqn:Ew; [|now left].
        apply dict_set_In in Hacc as [[-> ->]|Hacc]; [|now left].
        right. exists col. split; [lia|]. now split.
      * right. exists j. split; [lia|]. now split.
Qed.

(** The scan finds a header that is there. *)
Lemma find_column_from_finds (m : M) name n : forall i j,
  (forall k, (i <= k < i + n)%nat -> exists h, headerData m k = Ret h) ->
  (i <= j < i + n)%nat -> headerData m j = Ret name ->
  exists k, find_column_from m name i n = Ret (Some k) /\ headerData m k = Ret name.
Proof.
  induction n as [|n IH]; intros i j Hheads Hj Hname; [lia|].
  cbn [find_column_from]. destruct (Hheads i ltac:(lia)) as [h Eh]. rewrite Eh.
  cbn [mbind res_bind bind].
  destruct (String.eqb_spec h name) as [->|Hne]; [eauto|].
  apply (IH (S i) j).
  - intros k Hk. apply Hheads. lia.
  - destruct (decide (j = i)) as [->|]; [congruence | lia].
  - exact Hname.
Qed.

(** X10: every filter the dialog returns is applied: its key is the
    header of a column of the model the dialog was built from, so that the
    scan of [filterAcceptsRow] finds a column for it, whatever the user did
    to the widgets in between. *)
Theorem dialog_filters_name_columns :
  forall (m : M) (today : date)
         (column_widgets edited : list (string * FilterDialog.widgets))
         (name : string) (fd : dict),
    FilterDialog.init_ui (Some m) today = Ret (Some column_widgets) ->
    map fst edited = map fst column_widgets ->
    In (name, fd) (FilterDialog.get_filters edited) ->
    exists i, find_column m name = Ret (Some i) /\
              (i < columnCount m)%nat /\ headerData m i = Ret name.
Proof.
  intros m today cw edited name fd Hinit Hkeys Hin.
  unfold FilterDialog.init_ui in Hinit.
  destruct (FilterDialog.init_columns m today 0 (columnCount m) []) as [r|e] eqn:Er;
    cbn [mbind res_bind bind] in Hinit; [|discriminate].
  injection Hinit as ->.
  destruct (init_columns_In m today _ _ _ _ Er) as [Hheads Hfrom].
  apply get_filters_keys in Hin. rewrite Hkeys in Hin.
  apply in_map_iff in Hin as ([k w] & Hk & Hin). cbn in Hk. subst k.
  destruct (Hfrom name w Hin) as [[]|(j & Hj & Hh & _)].
  destruct (find_column_from_finds m name (columnCount m) 0 j Hheads Hj Hh)
    as (k & Hfind & Hk).
  exists k. split; [exact Hfind|]. split; [|exact Hk].
  apply find_column_from_Some in Hfind. lia.
Qed.

(** X11: a dialog that is accepted as it opens filters every datetime
    column to the twelve months before today, and filters nothing else:
    each descriptor it returns is the date descriptor from one year ago to
    today, for a header of a column tagged [datetime64[ns]]. *)
Theorem untouched_dialog_filters_last_year :
  forall (m : M) (today : date)
         (column_widgets : list (string * FilterDialog.widgets))
         (name : string) (fd : dict),
    FilterDialog.init_ui (Some m) today = Ret (Some column_widgets) ->
    In (name, fd) (FilterDialog.get_filters column_widgets) ->
    fd = date_filter (FilterDialog.addYears today (-1)) today /\
    exists j, (j < columnCount m)%nat /\ headerData m j = Ret name /\
              get_column_dtype m j = "datetime64[ns]".
Proof.
  intros m today cw name fd Hinit Hin.
  unfold FilterDialog.init_ui in Hinit.
  destruct (FilterDialog.init_columns m today 0 (columnCount m) []) as [r|e] eqn:Er;
    cbn [mbind res_bind bind] in Hinit; [|discriminate].
  injection Hinit as ->.
  destruct (init_columns_In m today _ _ _ _ Er) as [_ Hfrom].
  unfold FilterDialog.get_filters in Hin.
  apply get_filters_In in Hin as [[]|(w & Hw & -> & Hs)].
  destruct (Hfrom name w Hw) as [[]|(j & Hj & Hh & Hwf)].
  destruct (fresh_widgets_filter _ _ _ Hwf Hs) as [Hd Hf].
  split; [exact Hf|]. exists j. split; [lia|]. now split.
Qed.

End DialogFacts.

Lemma dialog_filters_name_columns_witness :
  exists i, find_column (pandas_model dated_frame) "n" = Ret (Some i) /\
            (i < columnCount (pandas_model dated_frame))%nat /\
            headerData (pandas_model dated_frame) i = Ret "n".
Proof.
  apply (dialog_filters_name_columns (pandas_model dated_frame) (mkDate 2024 2 29)
           [("n", FilterDialog.RangeWidgets FilterDialog.minus_billion
                    FilterDialog.billion "int64");
            ("when", FilterDialog.DateWidgets (mkDate 2023 2 28) (mkDate 2024 2 29));
            ("ok", FilterDialog.BoolWidget None)]
           [("n", FilterDialog.RangeWidgets (float_of_Z 0) (float_of_Z 1) "int64");
            ("when", FilterDialog.DateWidgets (mkDate 2023 2 28) (mkDate 2024 2 29));
            ("ok", FilterDialog.BoolWidget (Some true))]
           "n" (range_filter (float_of_Z 0) (float_of_Z 1))).
  - vm_compute. reflexivity.
  - reflexivity.
  - vm_compute. left. reflexivity.
Defined.

Lemma untouched_dialog_filters_last_year_witness :
  date_filter (mkDate 2023 2 28) (mkDate 2024 2 29)
  = date_filter (FilterDialog.addYears (mkDate 2024 2 29) (-1)) (mkDate 2024 2 29) /\
  exists j, (j < columnCount (pandas_model dated_frame))%nat /\
            headerData (pandas_model dated_frame) j = Ret "when" /\
            get_column_dtype (pandas_model dated_frame) j = "datetime64[ns]".
Proof.
  apply (untouched_dialog_filters_last_year (pandas_model dated_frame) (mkDate 2024 2 29)
           [("n", FilterDialog.RangeWidgets FilterDialog.minus_billion
                    FilterDialog.billion "int64");
            ("when", FilterDialog.DateWidgets (mkDate 2023 2 28) (mkDate 2024 2 29));
            ("ok", FilterDialog.BoolWidget None)]
           "when" (date_filter (mkDate 2023 2 28) (mkDate 2024 2 29))).
  - vm_compute. reflexivity.
  - vm_compute. left. reflexivity.
Defined.

(** ** Sorting and the rest of the model *)

Lemma pandas_dtype_take c p :
  Pandas.dtype_str (Pandas.take_series c p) = Pandas.dtype_str c.
Proof. now destruct c. Qed.

Lemma polars_dtype_take c p :
  Polars.dtype_str (Polars.take_series c p) = Polars.dtype_str c.
Proof. now destruct c. Qed.

Lemma pandas_sort_values_take argsort df name asc d :
  Pandas.sort_values argsort df name asc = Ret d -> exists p, d = Pandas.take df p.
Proof.
  unfold Pandas.sort_values.
  destruct (List.filter _ df) as [|c [|c' l]]; try discriminate.
  destruct (argsort _ asc) as [p|e]; cbn; [|discriminate].
  intros [= <-]. now exists p.
Qed.

Lemma polars_sort_by_take arg_sort df name desc d :
  Polars.sort_by arg_sort df name desc = Ret d -> exists p, d = Polars.take df p.
Proof.
  unfold Polars.sort_by.
  destruct (List.find _ df) as [c|]; try discriminate.
  destruct (arg_sort _ desc) as [p|e]; cbn; [|discriminate].
  intros [= <-]. now exists p.
Qed.

(** What a sort leaves of a pandas model: the model itself, or the model
    with its rows taken in another order. *)
Lemma pandas_sort_result argsort column order m log :
  let m' := snd (fst (Pandas.sort argsort column order m log)) in
  m' = m \/ exists p, m' = Pandas.set_data (Pandas.take (Pandas._data m) p) m.
Proof.
  rewrite pandas_sort_run.
  destruct (py_index _ column) as [col_name|e]; cbn [fst snd]; [|now left].
  destruct (Pandas.sort_values _ _ _ _) as [d|e] eqn:Es; [|now left].
  apply pandas_sort_values_take in Es as [p ->]. right. now exists p.
Qed.

Lemma polars_sort_result arg_sort column order m log :
  let m' := snd (fst (Polars.sort arg_sort column order m log)) in
  m' = m \/ exists p, m' = Polars.set_data (Polars.take (Polars._data m) p) m.
Proof.
  rewrite polars_sort_run.
  destruct (py_index _ column) as [col_name|e]; cbn [fst snd]; [|now left].
  destruct (Polars.sort_by _ _ _ _) as [d|e] eqn:Es; [|now left].
  apply polars_sort_by_take in Es as [p ->]. right. now exists p.
Qed.

(** X12: a sort never touches the shape of the table: whatever the
    ordering routine answers, and whether [sort] returns or raises, the
    model has the same header labels, the same type tag for every column,
    the same number of columns and the same [_original_data] afterwards, in
    both models. *)
Theorem sort_keeps_columns :
  (forall argsort (m : Pandas.PandasTableModel) (column : Z) (order : SortOrder) log,
      let m' := snd (fst (Pandas.sort argsort column order m log)) in
      Pandas._original_data m' = Pandas._original_data m /\
      columnCount m' = columnCount m /\
      (forall section, headerData m' section = headerData m section) /\
      (forall c, get_column_dtype m' c = get_column_dtype m c))
  /\ (forall arg_sort (m : Polars.PolarsTableModel) (column : Z) (order : SortOrder) log,
         let m' := snd (fst (Polars.sort arg_sort column order m log)) in
         Polars._original_data m' = Polars._original_data m /\
         columnCount m' = columnCount m /\
         (forall section, headerData m' section = headerData m section) /\
         (forall c, get_column_dtype m' c = get_column_dtype m c)).
Proof.
  split.
  - intros argsort m column order log m'.
    destruct (pandas_sort_result argsort column order m log) as [E|[p E]];
      fold m' in E; rewrite E; [repeat split|].
    split; [reflexivity|]. split; [|split].
    + cbn. unfold Pandas.columnCount, Pandas.take. cbn. now rewrite length_map.
    + intros section. cbn. unfold Pandas.headerData. cbn [Pandas.set_data Pandas._data].
      now rewrite pandas_labels_take.
    + intros c. cbn. unfold Pandas.get_column_dtype, Pandas.take.
      cbn [Pandas.set_data Pandas._data]. rewrite lookup_map.
      destruct (Pandas._data m !! c) as [col|]; cbn; [|reflexivity].
      apply pandas_dtype_take.
  - intros arg_sort m column order log m'.
    destruct (polars_sort_result arg_sort column order m log) as [E|[p E]];
      fold m' in E; rewrite E; [repeat split|].
    split; [reflexivity|]. split; [|split].
    + cbn. unfold Polars.columnCount, Polars.width_of, Polars.take. cbn.
      now rewrite length_map.
    + intros section. cbn. unfold Polars.headerData. cbn [Polars.set_data Polars._data].
      now rewrite polars_names_take.
    + intros c. cbn. unfold Polars.get_column_dtype, Polars.take.
      cbn [Polars.set_data Polars._data]. rewrite lookup_map.
      destruct (Polars._data m !! c) as [col|]; cbn [option_map Polars.values]; [|reflexivity].
      now rewrite polars_dtype_take.
Qed.

(** ** Filtering sees a model by its headers and its display only *)

Lemma find_column_from_ext {M M'} `{TableModel M} `{TableModel M'}
  (m : M) (m' : M') name n : forall i,
  (forall section, headerData m section = headerData m' section) ->
  find_column_from m name i n = find_column_from m' name i n.
Proof.
  induction n as [|n IH]; intros i Hh; [reflexivity|].
  cbn [find_column_from]. rewrite Hh.
  destruct (headerData m' i) as [h|e]; cbn; [|reflexivity].
  destruct (String.eqb h name); [reflexivity | now apply IH].
Qed.

Lemma accepts_all_ext {M M'} `{TableModel M} `{TableModel M'}
  (m : M) (m' : M') (row row' : Z) :
  columnCount m = columnCount m' ->
  (forall section, headerData m section = headerData m' section) ->
  (forall col, data m (index m row col) = data m' (index m' row' col)) ->
  forall filters, accepts_all m row filters = accepts_all m' row' filters.
Proof.
  intros Hc Hh Hd filters.
  induction filters as [|[col_name fd] rest IH]; [reflexivity|].
  cbn [accepts_all]. unfold find_column.
  rewrite Hc, (find_column_from_ext m m' col_name _ 0 Hh).
  destruct (find_column_from m' col_name 0 (columnCount m')) as [[i|]|e]; cbn;
    [|exact IH|reflexivity].
  rewrite Hd. destruct (data m' _) as [v|e]; cbn; [|reflexivity].
  destruct (apply_filter v fd) as [[|]|e]; cbn; [exact IH|reflexivity..].
Qed.


(** ** Sorting moves whole rows *)

Lemma pandas_iloc_take n (df : Pandas.DataFrame) p a i c :
  pandas_rows n df -> Forall (fun j => (j < n)%nat) p -> p !! a = Some i ->
  Pandas.iloc (Pandas.take df p) a c = Pandas.iloc df i c.
Proof.
  intros Hn Hp Ha. unfold Pandas.iloc, Pandas.take. rewrite lookup_map.
  destruct (df !! c) as [col|] eqn:Hcol; cbn [option_map Pandas.values]; [|reflexivity].
  pose proof (proj1 (Forall_lookup _ _) Hn c col Hcol) as Hlen. cbn in Hlen.
  rewrite pandas_scalars_take, reorder_lookup by now rewrite Hlen.
  now rewrite Ha.
Qed.

Lemma pandas_rows_take n (df : Pandas.DataFrame) p :
  pandas_rows n df -> Forall (fun j => (j < n)%nat) p ->
  pandas_rows (length p) (Pandas.take df p).
Proof.
  intros Hn Hp. unfold pandas_rows, Pandas.take. rewrite Forall_map.
  eapply Forall_impl; [exact Hn|]. intros col Hlen. cbn in *.
  rewrite pandas_scalars_take, length_reorder; [reflexivity | now rewrite Hlen].
Qed.

Lemma polars_rows_take n (df : Polars.DataFrame) p :
  polars_rows n df -> Forall (fun j => (j < n)%nat) p ->
  polars_rows (length p) (Polars.take df p).
Proof.
  intros Hn Hp. unfold polars_rows, Polars.take. rewrite Forall_map.
  eapply Forall_impl; [exact Hn|]. intros col Hlen. cbn in *.
  rewrite polars_pvalues_take, length_reorder; [reflexivity | now rewrite Hlen].
Qed.

Lemma pandas_len_take n (df : Pandas.DataFrame) p :
  pandas_rows n df -> Forall (fun j => (j < n)%nat) p -> length p = n ->
  Pandas.len (Pandas.take df p) = Pandas.len df.
Proof.
  intros Hn Hp Hl. destruct df as [|c0 df]; [reflexivity|].
  apply Forall_cons in Hn as [H0 _]. cbn in *.
  rewrite pandas_scalars_take, length_reorder; [lia | now rewrite H0].
Qed.

Lemma polars_height_take n (df : Polars.DataFrame) p :
  polars_rows n df -> Forall (fun j => (j < n)%nat) p -> length p = n ->
  Polars.height (Polars.take df p) = Polars.height df.
Proof.
  intros Hn Hp Hl. destruct df as [|c0 df]; [reflexivity|].
  apply Forall_cons in Hn as [H0 _]. cbn in *.
  rewrite polars_pvalues_take, length_reorder; [lia | now rewrite H0].
Qed.

Lemma polars_data_take n (m : Polars.PolarsTableModel) p a i c :
  polars_rows n (Polars._data m) -> Forall (fun j => (j < n)%nat) p ->
  length p = n -> p !! a = Some i ->
  Polars.data (Polars.set_data (Polars.take (Polars._data m) p) m) (Index a c)
  = Polars.data m (Index i c).
Proof.
  intros Hn Hp Hl Ha. unfold Polars.data, Polars.rowCount, Polars.columnCount,
    Polars.width_of. cbn [Polars.set_data Polars._data].
  rewrite (polars_height_take n _ p Hn Hp Hl).
  replace (length (Polars.take (Polars._data m) p)) with (length (Polars._data m))
    by (unfold Polars.take; now rewrite length_map).
  pose proof (lookup_lt_Some _ _ _ Ha) as Ha'.
  pose proof (proj1 (Forall_lookup _ _) Hp a i Ha) as Hi. cbn in Hi.
  destruct (Nat.ltb_spec c (length (Polars._data m))) as [Hc|Hc];
    [|now rewrite !andb_false_r].
  rewrite (polars_height_rows n _ c Hn Hc).
  destruct (Nat.ltb_spec a n); [|lia]. destruct (Nat.ltb_spec i n); [|lia].
  cbn [andb]. unfold Polars.cell, Polars.take. rewrite lookup_map.
  destruct (Polars._data m !! c) as [col|] eqn:Hcol; cbn [option_map Polars.values];
    [|reflexivity].
  pose proof (proj1 (Forall_lookup _ _) Hn c col Hcol) as Hlen. cbn in Hlen.
  rewrite polars_pvalues_take, reorder_lookup by now rewrite Hlen.
  rewrite Ha. destruct (Polars.pvalues (Polars.values col) !! i) as [[v|]|]; reflexivity.
Qed.

Lemma index_same_row {M M'} `{TableModel M} `{TableModel M'}
  (m : M) (m' : M') (a i : nat) col :
  rowCount m = rowCount m' -> columnCount m = columnCount m' ->
  (a < rowCount m)%nat -> (i < rowCount m)%nat ->
  (index m (Z.of_nat a) col = Invalid /\ index m' (Z.of_nat i) col = Invalid) \/
  exists c, index m (Z.of_nat a) col = Index a c /\
            index m' (Z.of_nat i) col = Index i c.
Proof.
  intros Hr Hc Ha Hi. unfold index. rewrite <- Hr, <- Hc.
  destruct (Z.leb_spec 0 (Z.of_nat a)); [|lia].
  destruct (Z.ltb_spec (Z.of_nat a) (Z.of_nat (rowCount m))); [|lia].
  destruct (Z.leb_spec 0 (Z.of_nat i)); [|lia].
  destruct (Z.ltb_spec (Z.of_nat i) (Z.of_nat (rowCount m))); [|lia].
  cbn [andb]. destruct (_ && _); [|now left].
  right. exists (Z.to_nat col). now rewrite !Nat2Z.id.
Qed.

(** X14: a sort moves whole rows.  When the ordering routine answers
    with a permutation [p] of the rows of a frame whose columns have one
    length, the model has as many rows as before, its columns still have
    one length, the row at position [a] displays in every column what the
    row [p[a]] displayed before, and [filterAcceptsRow] accepts it exactly
    when it accepted that row; in both models. *)
Theorem sort_moves_whole_rows :
  (forall argsort (m : Pandas.PandasTableModel) column order log col_name col p n,
      pandas_rows n (Pandas._data m) ->
      py_index (map Pandas.label (Pandas._data m)) column = Ret col_name ->
      List.filter (fun c => String.eqb (Pandas.label c) col_name) (Pandas._data m)
      = [col] ->
      argsort (Pandas.scalars (Pandas.values col)) (SortOrder_eqb order AscendingOrder)
      = Ret p ->
      p ≡ₚ seq 0 n ->
      let m' := snd (fst (Pandas.sort argsort column order m log)) in
      rowCount m' = rowCount m /\
      pandas_rows n (Pandas._data m') /\
      forall a i, p !! a = Some i ->
        (forall c, Pandas.data m' (Index a c) = Pandas.data m (Index i c)) /\
        (forall filters,
            filterAcceptsRow (Some m') filters (Z.of_nat a)
            = filterAcceptsRow (Some m) filters (Z.of_nat i)))
  /\ (forall arg_sort (m : Polars.PolarsTableModel) column order log col_name col p n,
         polars_rows n (Polars._data m) ->
         py_index (map Polars.name (Polars._data m)) column = Ret col_name ->
         List.find (fun c => String.eqb (Polars.name c) col_name) (Polars._data m)
         = Some col ->
         arg_sort (Polars.pvalues (Polars.values col)) (SortOrder_eqb order DescendingOrder)
         = Ret p ->
         p ≡ₚ seq 0 n ->
         let m' := snd (fst (Polars.sort arg_sort column order m log)) in
         rowCount m' = rowCount m /\
         polars_rows n (Polars._data m') /\
         forall a i, p !! a = Some i ->
           (forall c, Polars.data m' (Index a c) = Polars.data m (Index i c)) /\
           (forall filters,
               filterAcceptsRow (Some m') filters (Z.of_nat a)
               = filterAcceptsRow (Some m) filters (Z.of_nat i))).
Proof.
  split.
  - intros argsort m column order log col_name col p n Hn Hi Hf Hs Hp m'.
    pose proof (permutation_in_range _ _ Hp) as Rp.
    assert (Lp : length p = n).
    { apply Permutation_length in Hp. now rewrite length_seq in Hp. }
    assert (Em : m' = Pandas.set_data (Pandas.take (Pandas._data m) p) m).
    { subst m'. rewrite pandas_sort_run, Hi. unfold Pandas.sort_values.
      now rewrite Hf, Hs. }
    assert (Hrows : rowCount m' = rowCount m).
    { rewrite Em. cbn. unfold Pandas.rowCount. cbn [Pandas.set_data Pandas._data].
      now apply (pandas_len_take n). }
    assert (Hcols : columnCount m' = columnCount m).
    { rewrite Em. cbn. unfold Pandas.columnCount, Pandas.take. cbn.
      now rewrite length_map. }
    assert (Hne : (0 < length (Pandas._data m))%nat).
    { destruct (Pandas._data m); [discriminate Hf | cbn; lia]. }
    assert (Hlen : rowCount m = n).
    { cbn. unfold Pandas.rowCount. now apply (pandas_len_rows n _ 0%nat). }
    split; [exact Hrows|]. split.
    { rewrite Em. cbn [Pandas.set_data Pandas._data]. rewrite <- Lp at 1.
      now apply (pandas_rows_take n). }
    intros a i Ha.
    assert (Hd : forall c, Pandas.data m' (Index a c) = Pandas.data m (Index i c)).
    { intros c. rewrite Em. unfold Pandas.data. cbn [Pandas.set_data Pandas._data].
      now rewrite (pandas_iloc_take n _ p a i c Hn Rp Ha). }
    split; [exact Hd|]. intros filters. cbn [filterAcceptsRow].
    apply accepts_all_ext; [exact Hcols| |].
    + intros section. rewrite Em. cbn. unfold Pandas.headerData.
      cbn [Pandas.set_data Pandas._data]. now rewrite pandas_labels_take.
    + intros c0.
      pose proof (lookup_lt_Some _ _ _ Ha) as Ha'.
      pose proof (proj1 (Forall_lookup _ _) Rp a i Ha) as Hi'. cbn in Hi'.
      destruct (index_same_row m' m a i c0 Hrows Hcols ltac:(lia) ltac:(lia))
        as [[-> ->]|(c & -> & ->)]; [reflexivity | apply Hd].
  - intros arg_sort m column order log col_name col p n Hn Hi Hf Hs Hp m'.
    pose proof (permutation_in_range _ _ Hp) as Rp.
    assert (Lp : length p = n).
    { apply Permutation_length in Hp. now rewrite length_seq in Hp. }
    assert (Em : m' = Polars.set_data (Polars.take (Polars._data m) p) m).
    { subst m'. rewrite polars_sort_run, Hi. unfold Polars.sort_by.
      now rewrite Hf, Hs. }
    assert (Hrows : rowCount m' = rowCount m).
    { rewrite Em. cbn. unfold Polars.rowCount. cbn [Polars.set_data Polars._data].
      now apply (polars_height_take n). }
    assert (Hcols : columnCount m' = columnCount m).
    { rewrite Em. cbn. unfold Polars.columnCount, Polars.width_of, Polars.take. cbn.
      now rewrite length_map. }
    assert (Hne : (0 < length (Polars._data m))%nat).
    { destruct (Polars._data m); [discriminate Hf | cbn; lia]. }
    assert (Hlen : rowCount m = n).
    { cbn. unfold Polars.rowCount. now apply (polars_height_rows n _ 0%nat). }
    split; [exact Hrows|]. split.
    { rewrite Em. cbn [Polars.set_data Polars._data]. rewrite <- Lp at 1.
      now apply (polars_rows_take n). }
    intros a i Ha.
    assert (Hd : forall c, Polars.data m' (Index a c) = Polars.data m (Index i c)).
    { intros c. rewrite Em. now apply (polars_data_take n). }
    split; [exact Hd|]. intros filters. cbn [filterAcceptsRow].
    apply accepts_all_ext; [exact Hcols| |].
    + intros section. rewrite Em. cbn. unfold Polars.headerData.
      cbn [Polars.set_data Polars._data]. now rewrite polars_names_take.
    + intros c0.
      pose proof (lookup_lt_Some _ _ _ Ha) as Ha'.
      pose proof (proj1 (Forall_lookup _ _) Rp a i Ha) as Hi'. cbn in Hi'.
      destruct (index_same_row m' m a i c0 Hrows Hcols ltac:(lia) ltac:(lia))
        as [[-> ->]|(c & -> & ->)]; [reflexivity | apply Hd].
Qed.

Lemma sort_moves_whole_rows_witness :
  let m := pandas_model ties_frame in
  let m' := snd (fst (Pandas.sort int_argsort 0 AscendingOrder m [])) in
  rowCount m' = rowCount m /\
  pandas_rows 4 (Pandas._data m') /\
  forall a i, [1; 3; 0; 2]%nat !! a = Some i ->
    (forall c, Pandas.data m' (Index a c) = Pandas.data m (Index i c)) /\
    (forall filters,
        filterAcceptsRow (Some m') filters (Z.of_nat a)
        = filterAcceptsRow (Some m) filters (Z.of_nat i)).
Proof.
  apply (proj1 sort_moves_whole_rows int_argsort (pandas_model ties_frame) 0
           AscendingOrder [] "k"
           (Pandas.mkColumn "k" (Pandas.IntCol true Pandas.W64 [2; 1; 2; 1]))
           [1; 3; 0; 2]%nat 4%nat).
  - unfold pandas_rows. apply (bool_decide_unpack _). vm_compute. reflexivity.
  - vm_compute. reflexivity.
  - vm_compute. reflexivity.
  - vm_compute. reflexivity.
  - apply (bool_decide_unpack _). vm_compute. reflexivity.
Defined.

(** ** Boolean cells *)

Lemma apply_bool_filter (value : option string) (w : bool) :
  apply_filter value (bool_filter w)
  = Ret (str_in (lower (str_of value))
           (if w then ["true"; "1"; "да"; "yes"] else ["false"; "0"; "нет"; "no"])).
Proof.
  unfold apply_filter, filter_body.
  change (get (bool_filter w) "type") with (VStr "bool").
  change (eq_str (VStr "bool") "range") with false.
  change (eq_str (VStr "bool") "text") with false.
  change (eq_str (VStr "bool") "date") with false.
  change (eq_str (VStr "bool") "bool") with true. cbv iota.
  unfold bool_body. change (get (bool_filter w) "value") with (VBool w).
  now destruct w.
Qed.

(** X15: on a boolean column the boolean filter keeps exactly the rows
    whose cell is the value asked for, in both models, and a null cell of
    the polars model passes neither choice; the descriptor the dialog makes
    for the choice [w] of its combo box is that filter. *)
Theorem boolean_cell_bool_filter :
  (forall (m : Pandas.PandasTableModel) (r c : nat) (b w : bool),
      Pandas.iloc (Pandas._data m) r c = Ret (Pandas.NpBool b) ->
      exists shown,
        data m (Index r c) = Ret (Some shown) /\
        apply_filter (Some shown) (FilterDialog.filter_data_of (FilterDialog.BoolWidget (Some w)))
        = Ret (Bool.eqb b w))
  /\ (forall (m : Polars.PolarsTableModel) (r c : nat) dtype (v : option bool) (w : bool),
         (r < rowCount m)%nat -> (c < columnCount m)%nat ->
         Polars.cell (Polars._data m) r c = Ret (dtype, option_map Polars.PBool v) ->
         exists shown,
           data m (Index r c) = Ret (Some shown) /\
           apply_filter (Some shown) (bool_filter w)
           = Ret match v with Some b => Bool.eqb b w | None => false end).
Proof.
  split.
  - intros m r c b w H. exists (if b then "True" else "False"). split.
    + cbn. unfold Pandas.data. now rewrite H.
    + change (FilterDialog.filter_data_of (FilterDialog.BoolWidget (Some w)))
        with (bool_filter w).
      rewrite apply_bool_filter. now destruct b, w.
  - intros m r c dtype v w Hr Hc H. eexists. split.
    + exact (polars_data_cell m r c dtype _ Hr Hc H).
    + rewrite apply_bool_filter. destruct v as [[|]|], w; reflexivity.
Qed.

Lemma boolean_cell_bool_filter_witness :
  exists shown,
    data (pandas_model dated_frame) (Index 1 2) = Ret (Some shown) /\
    apply_filter (Some shown)
      (FilterDialog.filter_data_of (FilterDialog.BoolWidget (Some true)))
    = Ret (Bool.eqb false true).
Proof.
  apply (proj1 boolean_cell_bool_filter (pandas_model dated_frame) 1%nat 2%nat false true).
  vm_compute. reflexivity.
Defined.

(** ** Headers *)

Lemma nth_error_lookup {A} (l : list A) : forall i, nth_error l i = l !! i.
Proof. induction l as [|x l IH]; intros [|i]; cbn; auto. Qed.

Lemma read_digits_whole n :
  0 <= n -> exists len, read_digits (digits n) 0 0 = (n, len, "").
Proof.
  intros Hn. destruct (read_digits_digits n "" 0 Hn I) as (len & _ & H).
  rewrite append_empty in H. eauto.
Qed.

(** X16: the vertical header of row [section] is the numeral of
    [section + 1], without the separators the cells have, for every model
    and whether the row exists or not; so the two models label the rows
    alike and distinct rows have distinct labels.  The horizontal header is
    the label of the column, or [IndexError] past the last column.  No
    other role than the display role has a header. *)
Theorem header_labels :
  (forall (m1 : Pandas.PandasTableModel) (m2 : Polars.PolarsTableModel) (s1 s2 : Z),
      0 <= s1 -> 0 <= s2 ->
      Pandas.headerData_role m1 s1 Vertical DisplayRole = Ret (Some (digits (s1 + 1))) /\
      Polars.headerData_role m2 s2 Vertical DisplayRole = Ret (Some (digits (s2 + 1))) /\
      (exists len, read_digits (digits (s1 + 1)) 0 0 = (s1 + 1, len, "")) /\
      (digits (s1 + 1) = digits (s2 + 1) -> s1 = s2))
  /\ (forall (m : Pandas.PandasTableModel) (section : nat),
         Pandas.headerData_role m (Z.of_nat section) Horizontal DisplayRole
         = match Pandas._data m !! section with
           | Some col => Ret (Some (Pandas.label col))
           | None => Raise IndexError
           end)
  /\ (forall (m : Polars.PolarsTableModel) (section : nat),
         Polars.headerData_role m (Z.of_nat section) Horizontal DisplayRole
         = match Polars._data m !! section with
           | Some col => Ret (Some (Polars.name col))
           | None => Raise IndexError
           end)
  /\ (forall (m1 : Pandas.PandasTableModel) (m2 : Polars.PolarsTableModel)
             section orientation role,
         role <> DisplayRole ->
         Pandas.headerData_role m1 section orientation role = Ret None /\
         Polars.headerData_role m2 section orientation role = Ret None).
Proof.
  assert (Hidx : forall {A} (l : list A) (section : nat),
             py_index l (Z.of_nat section)
             = match l !! section with Some a => Ret a | None => Raise IndexError end).
  { intros A l section. unfold py_index.
    destruct (Z.ltb_spec (Z.of_nat section) 0); [lia|].
    destruct (Z.leb_spec 0 (Z.of_nat section)); [|lia]. cbn [andb].
    rewrite Nat2Z.id. rewrite nth_error_lookup.
    destruct (Z.ltb_spec (Z.of_nat section) (Z.of_nat (length l))) as [Hl|Hl].
    - reflexivity.
    - rewrite (proj2 (lookup_ge_None l section)); [reflexivity | lia]. }
  split; [|split; [|split]].
  - intros m1 m2 s1 s2 H1 H2.
    assert (Hv : forall s, 0 <= s -> str_of_int (s + 1) = digits (s + 1)).
    { intros s Hs. unfold str_of_int. destruct (Z.ltb_spec (s + 1) 0); [lia|].
      now rewrite Z.abs_eq by lia. }
    unfold Pandas.headerData_role, Polars.headerData_role. cbn [is_DisplayRole negb].
    rewrite !Hv by assumption. split; [reflexivity|]. split; [reflexivity|].
    split; [apply read_digits_whole; lia|].
    intros E.
    destruct (read_digits_whole (s1 + 1) ltac:(lia)) as [l1 R1].
    destruct (read_digits_whole (s2 + 1) ltac:(lia)) as [l2 R2].
    rewrite E, R2 in R1. inversion R1. lia.
  - intros m section. unfold Pandas.headerData_role. cbn [is_DisplayRole negb].
    rewrite Hidx, lookup_map. now destruct (Pandas._data m !! section).
  - intros m section. unfold Polars.headerData_role. cbn [is_DisplayRole negb].
    rewrite Hidx, lookup_map. now destruct (Polars._data m !! section).
  - intros m1 m2 section orientation role Hrole.
    unfold Pandas.headerData_role, Polars.headerData_role.
    destruct role; try (split; reflexivity). congruence.
Qed.

Lemma header_labels_witness :
  Pandas.headerData_role example_pandas 1233 Vertical DisplayRole = Ret (Some (digits 1234)) /\
  Polars.headerData_role example_polars 1233 Vertical DisplayRole = Ret (Some (digits 1234)) /\
  (exists len, read_digits (digits 1234) 0 0 = (1234, len, "")) /\
  (digits 1234 = digits 1234 -> 1233 = 1233).
Proof.
  apply (proj1 header_labels example_pandas example_polars 1233 1233); lia.
Defined.

(** ** Dates: what the display writes, [strptime] reads *)






























(** ** The date filter on the cells of a model *)
















(** ** The column a sort is asked for *)

Lemma py_index_from_end {A} (l : list A) k :
  1 <= k <= Z.of_nat (length l) ->
  py_index l (- k) = py_index l (Z.of_nat (length l) - k).
Proof.
  intros Hk. unfold py_index.
  destruct (Z.ltb_spec (- k) 0); [|lia].
  destruct (Z.ltb_spec (Z.of_nat (length l) - k) 0); [lia|].
  now replace (- k + Z.of_nat (length l)) with (Z.of_nat (length l) - k) by lia.
Qed.

(** X19: the column of a sort is a Python index.  A negative column
    counts from the last column, so that [sort(-1, order)] sorts by the last
    column; a column outside the table on either side raises [IndexError]
    after the first signal, with the data as it was; in both models. *)
Theorem sort_column_is_python_index :
  (forall argsort (m : Pandas.PandasTableModel) (k : Z) order log,
      1 <= k <= Z.of_nat (columnCount m) ->
      Pandas.sort argsort (- k) order m log
      = Pandas.sort argsort (Z.of_nat (columnCount m) - k) order m log)
  /\ (forall arg_sort (m : Polars.PolarsTableModel) (k : Z) order log,
         1 <= k <= Z.of_nat (columnCount m) ->
         Polars.sort arg_sort (- k) order m log
         = Polars.sort arg_sort (Z.of_nat (columnCount m) - k) order m log)
  /\ (forall argsort (m : Pandas.PandasTableModel) (column : Z) order log,
         ~ (- Z.of_nat (columnCount m) <= column < Z.of_nat (columnCount m)) ->
         Pandas.sort argsort column order m log
         = (Raise IndexError, m, (log ++ [layoutAboutToBeChanged])%list))
  /\ (forall arg_sort (m : Polars.PolarsTableModel) (column : Z) order log,
         ~ (- Z.of_nat (columnCount m) <= column < Z.of_nat (columnCount m)) ->
         Polars.sort arg_sort column order m log
         = (Raise IndexError, m, (log ++ [layoutAboutToBeChanged])%list)).
Proof.
  split; [|split; [|split]].
  - intros argsort m k order log Hk. rewrite !pandas_sort_run.
    cbn in Hk. unfold Pandas.columnCount in Hk.
    cbn. unfold Pandas.columnCount.
    rewrite (py_index_from_end (map Pandas.label (Pandas._data m)) k)
      by now rewrite length_map.
    now rewrite length_map.
  - intros arg_sort m k order log Hk. rewrite !polars_sort_run.
    cbn in Hk. unfold Polars.columnCount, Polars.width_of in Hk.
    cbn. unfold Polars.columnCount, Polars.width_of.
    rewrite (py_index_from_end (map Polars.name (Polars._data m)) k)
      by now rewrite length_map.
    now rewrite length_map.
  - intros argsort m column order log Hc. rewrite pandas_sort_run.
    rewrite py_index_out_of_range; [reflexivity|].
    rewrite length_map. exact Hc.
  - intros arg_sort m column order log Hc. rewrite polars_sort_run.
    rewrite py_index_out_of_range; [reflexivity|].
    rewrite length_map. exact Hc.
Qed.

Lemma sort_column_is_python_index_witness :
  Pandas.sort int_argsort (- 1) AscendingOrder (pandas_model ties_frame) []
  = Pandas.sort int_argsort (Z.of_nat (columnCount (pandas_model ties_frame)) - 1)
      AscendingOrder (pandas_model ties_frame) [].
Proof.
  apply (proj1 sort_column_is_python_index int_argsort (pandas_model ties_frame) 1).
  change (columnCount (pandas_model ties_frame)) with 2%nat. lia.
Defined.
